(** * dukhota.message: the Message Matcher

    A shallow embedding of [src/dukhota/message.py]: the pydantic model
    [Message], its constructor with the three derived fields, the
    comparability test and the equality cascade [__eq__].

    Python values are modelled as follows.
    - [int] is [Z]; [Optional[T]] is [option T]; [None] is [None].
    - [str] is a list of Unicode code points ([N]), so [len] is the number of
      code points, as in Python.
    - an exception is a value of [Py.exn], and code that may raise returns
      [Py.result].
    - [float] is the kernel's binary64 [float], with its IEEE 754 division
      and comparisons; a literal such as 0.66 denotes the nearest binary64
      value, as in Python.

    The model is of the method [__eq__] itself.  (The operator [==] of
    Python calls it and, on [NotImplemented], goes on to the reflected call
    and to the comparison of identities; that protocol is not part of the
    source.) *)

From Stdlib Require Import ZArith NArith Lia.
From Stdlib Require Import Ascii String Decimal DecimalString DecimalPos.
From Corelib Require Import PrimFloat.
From stdpp Require Import base list gmap.

#[local] Set Warnings "-inexact-float".

Local Open Scope Z_scope.

(** ** Python built-ins *)

Module Py.

Inductive exn : Set :=
| TypeError
| ValueError
| UnicodeEncodeError
| ZeroDivisionError.

Inductive result (A : Type) : Type :=
| Ok (a : A)
| Raise (e : exn).
Arguments Ok {A} a.
Arguments Raise {A} e.

Definition bind {A B : Type} (r : result A) (k : A -> result B) : result B :=
  match r with
  | Ok a => k a
  | Raise e => Raise e
  end.

(** [str]: a sequence of code points. *)
Definition codepoint : Set := N.
Definition str : Set := list codepoint.

(** A literal, written with Rocq's 8-bit characters. *)
Definition lit (s : string) : str :=
  List.map N_of_ascii (list_ascii_of_string s).

(** Truth value of an [Optional[int]]: [None] and [0] are false. *)
Definition truthy_int (x : option Z) : bool :=
  match x with
  | Some z => negb (z =? 0)
  | None => false
  end.

(** Truth value of a [str], a [list] and their [Optional]s: empty and
    [None] are false. *)
Definition truthy_seq {A : Type} (l : list A) : bool :=
  match l with
  | [] => false
  | _ :: _ => true
  end.

Definition truthy_opt_seq {A : Type} (x : option (list A)) : bool :=
  match x with
  | Some l => truthy_seq l
  | None => false
  end.

Definition truthy_opt_bool (x : option bool) : bool :=
  match x with
  | Some b => b
  | None => false
  end.

(** [x or y] for an [Optional[str]] on the left and a [str] on the right:
    the left operand when it is true, the right one otherwise. *)
Definition or_str (x : option str) (y : str) : str :=
  match x with
  | Some s => if truthy_seq s then s else y
  | None => y
  end.

(** [str(z)] for an int: decimal digits, with a leading minus sign. *)
Definition str_of_int (z : Z) : str :=
  lit (NilZero.string_of_int (Z.to_int z)).

(** [str(x)] for an [Optional[int]]: [str(None)] is the text "None". *)
Definition str_of_opt_int (x : option Z) : str :=
  match x with
  | Some z => str_of_int z
  | None => lit "None"
  end.

Fixpoint starts_with (p s : str) : bool :=
  match p, s with
  | [], _ => true
  | _ :: _, [] => false
  | a :: p', b :: s' => (a =? b)%N && starts_with p' s'
  end.

(** [s.replace(old, new)] for a non-empty [old]: every occurrence, left to
    right, without overlap.  [skip] counts the characters of an occurrence
    that are still to be dropped. *)
Fixpoint replace_from (old new : str) (skip : nat) (s : str) : str :=
  match s with
  | [] => []
  | c :: s' =>
      match skip with
      | S k => replace_from old new k s'
      | O =>
          if starts_with old s
          then new ++ replace_from old new (Nat.pred (List.length old)) s'
          else c :: replace_from old new O s'
      end
  end.

Definition replace (old new s : str) : str := replace_from old new O s.

(** [int(s)] on a sign followed by ASCII digits.  ([int] also accepts
    surrounding blanks, underscores between digits and non-ASCII digits;
    the code only passes it the text of an int or of [None].) *)
Definition digit (c : codepoint) : option Z :=
  if ((48 <=? c) && (c <=? 57))%N then Some (Z.of_N c - 48) else None.

Fixpoint digits (acc : Z) (s : str) : option Z :=
  match s with
  | [] => Some acc
  | c :: s' =>
      match digit c with
      | Some d => digits (10 * acc + d) s'
      | None => None
      end
  end.

Definition unsigned (s : str) : result Z :=
  match s with
  | [] => Raise ValueError
  | _ :: _ =>
      match digits 0 s with
      | Some z => Ok z
      | None => Raise ValueError
      end
  end.

Definition int_of_str (s : str) : result Z :=
  match s with
  | c :: s' =>
      if (c =? 45)%N then bind (unsigned s') (fun z => Ok (- z))
      else if (c =? 43)%N then unsigned s'
      else unsigned s
  | [] => unsigned s
  end.

(** [sep.join(parts)] *)
Fixpoint join (sep : str) (parts : list str) : str :=
  match parts with
  | [] => []
  | [p] => p
  | p :: ps => p ++ sep ++ join sep ps
  end.

(** [sep.join(x)] where [x] may be [None]: joining [None] is a TypeError. *)
Definition join_opt (sep : str) (x : option (list str)) : result str :=
  match x with
  | Some parts => Ok (join sep parts)
  | None => Raise TypeError
  end.

(** [s.encode("utf-8")]: bytes as integers below 256.  A surrogate code
    point cannot be encoded. *)
Definition utf8_char (c : codepoint) : result (list Z) :=
  let z := Z.of_N c in
  if z <? 0x80 then Ok [z]
  else if z <? 0x800 then
    Ok [Z.lor 0xC0 (Z.shiftr z 6); Z.lor 0x80 (Z.land z 0x3F)]
  else if (0xD800 <=? z) && (z <=? 0xDFFF) then Raise UnicodeEncodeError
  else if z <? 0x10000 then
    Ok [Z.lor 0xE0 (Z.shiftr z 12);
        Z.lor 0x80 (Z.land (Z.shiftr z 6) 0x3F);
        Z.lor 0x80 (Z.land z 0x3F)]
  else
    Ok [Z.lor 0xF0 (Z.land (Z.shiftr z 18) 0x07);
        Z.lor 0x80 (Z.land (Z.shiftr z 12) 0x3F);
        Z.lor 0x80 (Z.land (Z.shiftr z 6) 0x3F);
        Z.lor 0x80 (Z.land z 0x3F)].

Fixpoint encode_utf8 (s : str) : result (list Z) :=
  match s with
  | [] => Ok []
  | c :: s' =>
      bind (utf8_char c) (fun bs =>
      bind (encode_utf8 s') (fun rest => Ok (bs ++ rest)))
  end.

(** [float(n)] for a non-negative int; exact below 2^53. *)
Fixpoint float_of_pos (p : positive) : float :=
  match p with
  | xH => 1%float
  | xO q => (2 * float_of_pos q)%float
  | xI q => (2 * float_of_pos q + 1)%float
  end.

Definition float_of_nat (n : nat) : float :=
  match N.of_nat n with
  | N0 => 0%float
  | Npos p => float_of_pos p
  end.

(** [n / d] on two non-negative ints: true division, the correctly rounded
    quotient, which for ints below 2^53 is the IEEE quotient of their float
    values. *)
Definition truediv (n d : nat) : result float :=
  match d with
  | O => Raise ZeroDivisionError
  | S _ => Ok (float_of_nat n / float_of_nat d)%float
  end.

(** [x > y] and [x >= y] on floats. *)
Definition gt (x y : float) : bool := PrimFloat.ltb y x.
Definition ge (x y : float) : bool := PrimFloat.leb y x.

End Py.

(** ** hashlib: SHA-256 (FIPS 180-4) on a list of bytes *)

Module Hashlib.

Definition mask32 (x : Z) : Z := Z.land x 0xFFFFFFFF.
Definition add32 (x y : Z) : Z := mask32 (x + y).
Definition not32 (x : Z) : Z := Z.lxor x 0xFFFFFFFF.
Definition xor3 (x y z : Z) : Z := Z.lxor (Z.lxor x y) z.

(** Rotation and shift to the right of a 32-bit word. *)
Definition rotr (n x : Z) : Z :=
  Z.lor (Z.shiftr x n) (mask32 (Z.shiftl x (32 - n))).
Definition shr (n x : Z) : Z := Z.shiftr x n.

Definition Ch (x y z : Z) : Z := Z.lxor (Z.land x y) (Z.land (not32 x) z).
Definition Maj (x y z : Z) : Z := xor3 (Z.land x y) (Z.land x z) (Z.land y z).
Definition bsig0 (x : Z) : Z := xor3 (rotr 2 x) (rotr 13 x) (rotr 22 x).
Definition bsig1 (x : Z) : Z := xor3 (rotr 6 x) (rotr 11 x) (rotr 25 x).
Definition ssig0 (x : Z) : Z := xor3 (rotr 7 x) (rotr 18 x) (shr 3 x).
Definition ssig1 (x : Z) : Z := xor3 (rotr 17 x) (rotr 19 x) (shr 10 x).

(** The constants are defined from the first 64 primes: the first 32 bits
    of the fractional part of their cube roots (round constants) and, for
    the first 8, of their square roots (initial hash value). *)
Definition is_prime (n : Z) : bool :=
  (1 <? n) &&
  forallb (fun d => negb (n mod d =? 0))
          (List.map Z.of_nat (seq 2 (Z.to_nat n - 2))).

Definition primes64 : list Z :=
  Eval vm_compute in
    List.filter is_prime (List.map Z.of_nat (seq 2 310)).

(** Integer cube root below 2^36, one bit at a time. *)
Definition cbrt_step (n x : Z) (i : nat) : Z :=
  let y := x + 2 ^ Z.of_nat i in
  if y * y * y <=? n then y else x.

Definition cbrt (n : Z) : Z := fold_left (cbrt_step n) (rev (seq 0 36)) 0.

Definition K : list Z :=
  Eval vm_compute in
    List.map (fun p => mask32 (cbrt (p * 2 ^ 96))) primes64.

Definition H0 : list Z :=
  Eval vm_compute in
    List.map (fun p => mask32 (Z.sqrt (p * 2 ^ 64))) (firstn 8 primes64).

(** Padding: a 1 bit, zero bits up to 56 modulo 64 bytes, then the length
    in bits as a 64-bit big-endian integer. *)
Definition be_bytes (n : nat) (x : Z) : list Z :=
  List.map (fun i => Z.land (Z.shiftr x (8 * Z.of_nat i)) 0xFF) (rev (seq 0 n)).

Definition pad (msg : list Z) : list Z :=
  let len := Z.of_nat (List.length msg) in
  msg ++ [0x80] ++ repeat 0 (Z.to_nat ((55 - len) mod 64)) ++ be_bytes 8 (8 * len).

Fixpoint be_words (bs : list Z) : list Z :=
  match bs with
  | b0 :: b1 :: b2 :: b3 :: rest =>
      Z.lor (Z.lor (Z.shiftl b0 24) (Z.shiftl b1 16)) (Z.lor (Z.shiftl b2 8) b3)
      :: be_words rest
  | _ => []
  end.

(** Message schedule.  [w] holds the words computed so far, latest first. *)
Definition next_word (w : list Z) : Z :=
  add32 (add32 (ssig1 (nth 1 w 0)) (nth 6 w 0))
        (add32 (ssig0 (nth 14 w 0)) (nth 15 w 0)).

Fixpoint extend (n : nat) (w : list Z) : list Z :=
  match n with
  | O => w
  | S n' => extend n' (next_word w :: w)
  end.

Definition schedule (block : list Z) : list Z := rev (extend 48 (rev block)).

Record digest : Set := Digest {
  ha : Z; hb : Z; hc : Z; hd : Z; he : Z; hf : Z; hg : Z; hh : Z
}.

Definition round (s : digest) (kw : Z * Z) : digest :=
  let t1 := add32 (add32 (add32 (hh s) (bsig1 (he s)))
                         (add32 (Ch (he s) (hf s) (hg s)) (fst kw))) (snd kw) in
  let t2 := add32 (bsig0 (ha s)) (Maj (ha s) (hb s) (hc s)) in
  Digest (add32 t1 t2) (ha s) (hb s) (hc s) (add32 (hd s) t1) (he s) (hf s) (hg s).

Definition compress (s : digest) (block : list Z) : digest :=
  let r := fold_left round (combine K (schedule block)) s in
  Digest (add32 (ha s) (ha r)) (add32 (hb s) (hb r))
         (add32 (hc s) (hc r)) (add32 (hd s) (hd r))
         (add32 (he s) (he r)) (add32 (hf s) (hf r))
         (add32 (hg s) (hg r)) (add32 (hh s) (hh r)).

Fixpoint compress_all (n : nat) (s : digest) (ws : list Z) : digest :=
  match n with
  | O => s
  | S n' => compress_all n' (compress s (firstn 16 ws)) (skipn 16 ws)
  end.

Definition initial : digest :=
  Digest (nth 0 H0 0) (nth 1 H0 0) (nth 2 H0 0) (nth 3 H0 0)
         (nth 4 H0 0) (nth 5 H0 0) (nth 6 H0 0) (nth 7 H0 0).

(** [hashlib.sha256(data)] *)
Definition sha256 (data : list Z) : digest :=
  let ws := be_words (pad data) in
  compress_all (Nat.div (List.length ws) 16) initial ws.

(** [.hexdigest()]: the eight words, each as eight lowercase hex digits. *)
Definition hex_digit (d : Z) : Py.codepoint :=
  if d <? 10 then Z.to_N (48 + d) else Z.to_N (87 + d).

Definition hex32 (w : Z) : Py.str :=
  List.map (fun i => hex_digit (Z.land (Z.shiftr w (4 * Z.of_nat i)) 0xF))
           [7; 6; 5; 4; 3; 2; 1; 0]%nat.

Definition hexdigest (s : digest) : Py.str :=
  hex32 (ha s) ++ hex32 (hb s) ++ hex32 (hc s) ++ hex32 (hd s) ++
  hex32 (he s) ++ hex32 (hf s) ++ hex32 (hg s) ++ hex32 (hh s).

End Hashlib.

(** ** difflib: [SequenceMatcher(None, a, b).ratio()]

    The matcher of CPython's difflib with no junk predicate and the default
    [autojunk]: the longest matching block is found first, then the pieces
    to its left and to its right are matched in the same way. *)

Module Difflib.

Section Matcher.

Variables a b : Py.str.

(** [b2j]: for each element of [b], the indices at which it occurs, in
    increasing order; elements that are "popular" in a [b] of at least
    200 elements are left out. *)
Definition indices (x : Py.codepoint) : list nat :=
  List.map fst
    (List.filter (fun p => (snd p =? x)%N) (combine (seq 0 (List.length b)) b)).

Definition popular (x : Py.codepoint) : bool :=
  let n := List.length b in
  (200 <=? n)%nat && (n / 100 + 1 <? List.length (indices x))%nat.

Definition b2j (x : Py.codepoint) : list nat :=
  if popular x then [] else indices x.

(** [j2len.get(j - 1, 0)] *)
Definition before (j2len : gmap nat nat) (j : nat) : nat :=
  match j with
  | O => O
  | S j' => default O (j2len !! j')
  end.

(** The inner loop of [find_longest_match] for one [i]. *)
Fixpoint scan (i blo bhi : nat) (j2len : gmap nat nat) (js : list nat)
    (newj2len : gmap nat nat) (best : nat * nat * nat)
    : gmap nat nat * (nat * nat * nat) :=
  match js with
  | [] => (newj2len, best)
  | j :: js' =>
      if (j <? blo)%nat then scan i blo bhi j2len js' newj2len best
      else if (bhi <=? j)%nat then (newj2len, best)
      else
        let k := S (before j2len j) in
        let best' :=
          if (snd best <? k)%nat then (i + 1 - k, j + 1 - k, k)%nat else best in
        scan i blo bhi j2len js' (<[j := k]> newj2len) best'
  end.

Definition scan_all (alo ahi blo bhi : nat) : nat * nat * nat :=
  snd (fold_left
         (fun (st : gmap nat nat * (nat * nat * nat)) (i : nat) =>
            scan i blo bhi (fst st) (b2j (nth i a 0%N)) ∅ (snd st))
         (seq alo (ahi - alo))
         (∅, (alo, blo, O))).

(** The two loops that extend the block over equal elements on both
    sides.  (The two further loops only run over junk; there is none.) *)
Fixpoint extend_left (fuel alo blo : nat) (best : nat * nat * nat)
    : nat * nat * nat :=
  match fuel with
  | O => best
  | S fuel' =>
      let '(besti, bestj, bestsize) := best in
      if (alo <? besti)%nat && (blo <? bestj)%nat
         && (nth (besti - 1) a 0 =? nth (bestj - 1) b 0)%N
      then extend_left fuel' alo blo (besti - 1, bestj - 1, S bestsize)%nat
      else best
  end.

Fixpoint extend_right (fuel ahi bhi : nat) (best : nat * nat * nat)
    : nat * nat * nat :=
  match fuel with
  | O => best
  | S fuel' =>
      let '(besti, bestj, bestsize) := best in
      if (besti + bestsize <? ahi)%nat && (bestj + bestsize <? bhi)%nat
         && (nth (besti + bestsize) a 0 =? nth (bestj + bestsize) b 0)%N
      then extend_right fuel' ahi bhi (besti, bestj, S bestsize)
      else best
  end.

Definition find_longest_match (alo ahi blo bhi : nat) : nat * nat * nat :=
  let best := scan_all alo ahi blo bhi in
  let best := extend_left (List.length a) alo blo best in
  extend_right (List.length a) ahi bhi best.

(** [get_matching_blocks], keeping only the total size of the blocks.
    The head of [queue] is the entry pushed last. *)
Fixpoint matched (fuel : nat) (queue : list (nat * nat * nat * nat)) (acc : nat)
    : nat :=
  match fuel with
  | O => acc
  | S fuel' =>
      match queue with
      | [] => acc
      | (alo, ahi, blo, bhi) :: queue' =>
          let '(i, j, k) := find_longest_match alo ahi blo bhi in
          match k with
          | O => matched fuel' queue' acc
          | S _ =>
              let q1 :=
                if (alo <? i)%nat && (blo <? j)%nat
                then (alo, i, blo, j) :: queue' else queue' in
              let q2 :=
                if (i + k <? ahi)%nat && (j + k <? bhi)%nat
                then (i + k, ahi, j + k, bhi)%nat :: q1 else q1 in
              matched fuel' q2 (acc + k)%nat
          end
      end
  end.

Definition matches : nat :=
  let la := List.length a in
  let lb := List.length b in
  matched (2 * la + 2) [(O, la, O, lb)] O.

(** [_calculate_ratio(matches, len(a) + len(b))] *)
Definition ratio : float :=
  let length := (List.length a + List.length b)%nat in
  match length with
  | O => 1%float
  | S _ => (2 * Py.float_of_nat matches / Py.float_of_nat length)%float
  end.

End Matcher.

End Difflib.

(** ** The model [Message] *)

Module Message.

(** The fields of the pydantic model, each as declared. *)
Record t : Set := Build {
  from_id : option Z;
  channel_id : option Z;
  message_id : option Z;
  from_channel_id : option Z;
  from_message_id : option Z;
  forward_from_id : option Z;
  text : option Py.str;
  caption : option Py.str;
  media_ids : option (list Py.str);
  fingerprint : option Py.str;
  significant_text : option bool;
  chat_id : option Z
}.

(** Attribute assignment [self.field = v]. *)
Definition set_chat_id (v : option Z) (m : t) : t :=
  Build (from_id m) (channel_id m) (message_id m) (from_channel_id m)
        (from_message_id m) (forward_from_id m) (text m) (caption m)
        (media_ids m) (fingerprint m) (significant_text m) v.

Definition set_fingerprint (v : option Py.str) (m : t) : t :=
  Build (from_id m) (channel_id m) (message_id m) (from_channel_id m)
        (from_message_id m) (forward_from_id m) (text m) (caption m)
        (media_ids m) v (significant_text m) (chat_id m).

Definition set_significant_text (v : option bool) (m : t) : t :=
  Build (from_id m) (channel_id m) (message_id m) (from_channel_id m)
        (from_message_id m) (forward_from_id m) (text m) (caption m)
        (media_ids m) (fingerprint m) v (chat_id m).

Definition set_media_ids (v : option (list Py.str)) (m : t) : t :=
  Build (from_id m) (channel_id m) (message_id m) (from_channel_id m)
        (from_message_id m) (forward_from_id m) (text m) (caption m)
        v (fingerprint m) (significant_text m) (chat_id m).

(** [self.text or self.caption or EMPTY], EMPTY the empty string *)
Definition text_or_caption (m : t) : Py.str :=
  Py.or_str (text m) (Py.or_str (caption m) []).

(** [int(str(self.channel_id).replace(PREFIX, EMPTY))], PREFIX the text
    "-100" and EMPTY the empty string *)
Definition __chat_id (self : t) : Py.result Z :=
  Py.int_of_str (Py.replace (Py.lit "-100") [] (Py.str_of_opt_int (channel_id self))).

(** The four parts are built in order; joining a [media_ids] that is [None]
    raises before anything is hashed. *)
Definition __gen_fingerprint (self : t) : Py.result Py.str :=
  Py.bind (Py.join_opt (Py.lit ",") (media_ids self)) (fun media =>
  let fingerprint_parts :=
    [ Py.str_of_opt_int (from_channel_id self);
      Py.str_of_opt_int (from_message_id self);
      text_or_caption self;
      media ] in
  Py.bind (Py.encode_utf8 (Py.join (Py.lit ";") fingerprint_parts)) (fun data =>
  let fingerprint := Hashlib.hexdigest (Hashlib.sha256 data) in
  Py.Ok (firstn 16 fingerprint))).

(** [__init__]: [self] is the model as the call of [super().__init__] leaves
    it, with the validated field values; the three derived fields are then
    assigned in this order. *)
Definition __init__ (self : t) : Py.result t :=
  Py.bind (__chat_id self) (fun c =>
  let self := set_chat_id (Some c) self in
  Py.bind (__gen_fingerprint self) (fun f =>
  let self := set_fingerprint (Some f) self in
  Py.Ok (set_significant_text
           (Some (64 <? List.length (text_or_caption self))%nat) self))).

(** [is_comparable]: the three locals and the result, as truth values.
    ([and] and [or] return one of their operands; [__eq__] only tests the
    result with [not].) *)
Definition ids_present (self : t) : bool :=
  Py.truthy_int (channel_id self) && Py.truthy_int (message_id self).

Definition significant_content (self : t) : bool :=
  Py.truthy_opt_seq (media_ids self) || Py.truthy_opt_bool (significant_text self).

Definition forward_self (self : t) : bool :=
  Py.truthy_int (forward_from_id self)
  && bool_decide (forward_from_id self = from_id self).

Definition is_comparable (self : t) : bool :=
  ids_present self && significant_content self && negb (forward_self self).

(** What [__eq__] returns: [True], [False] or [NotImplemented]. *)
Inductive verdict : Set :=
| Bool (b : bool)
| NotImplemented.

(** The locals of [__eq__] that do not depend on the text ratio. *)
Definition same_message (self other : t) : bool :=
  Py.truthy_int (channel_id self)
  && bool_decide (channel_id self = channel_id other)
  && bool_decide (message_id self = message_id other).

Definition same_forwarded (self other : t) : bool :=
  Py.truthy_int (from_channel_id self)
  && bool_decide (from_channel_id self = from_channel_id other)
  && bool_decide (from_message_id self = from_message_id other).

Definition media_ratio_limit : float := 0.66.
Definition text_ratio_media_limit : float := 0.33.

Definition text_ratio_limit (self : t) : float :=
  if Py.truthy_int (from_channel_id self) && Py.truthy_int (from_message_id self)
  then 0.66%float else 0.75%float.

(** [list(set(xs) & set(ys))]; only its length is used. *)
Definition same_media_list (xs ys : list Py.str) : list Py.str :=
  elements (list_to_set xs ∩ list_to_set ys : gset (list N)).

(** [set(x)] for an [Optional[List[str]]]: [None] is not iterable.  The
    set itself is formed in [same_media_list]. *)
Definition iterable (x : option (list Py.str)) : Py.result (list Py.str) :=
  match x with
  | Some l => Py.Ok l
  | None => Py.Raise Py.TypeError
  end.

Section Eq.

(** [difflib.SequenceMatcher(None, a, b).ratio()] *)
Variable SequenceMatcher_ratio : Py.str -> Py.str -> float.

Definition same_text_ratio (self other : t) : float :=
  let compare_self := text_or_caption self in
  let compare_other := text_or_caption other in
  if negb (Py.truthy_seq compare_self) || negb (Py.truthy_seq compare_other)
  then 0%float
  else SequenceMatcher_ratio compare_self compare_other.

(** The block under [if self.media_ids:], and the final [return False]. *)
Definition same_media (self other : t) : Py.result verdict :=
  match media_ids self with
  | Some self_media =>
      if Py.truthy_seq self_media then
        Py.bind (iterable (media_ids other)) (fun other_media =>
        let max_media_len :=
          Nat.max (List.length self_media) (List.length other_media) in
        Py.bind (Py.truediv (List.length (same_media_list self_media other_media))
                            max_media_len) (fun same_media_ratio =>
        if Py.truthy_opt_bool (significant_text self)
           && Py.gt (same_text_ratio self other) text_ratio_media_limit
        then Py.Ok (Bool true)
        else if Py.ge same_media_ratio media_ratio_limit
        then Py.Ok (Bool true)
        else Py.Ok (Bool false)))
      else Py.Ok (Bool false)
  | None => Py.Ok (Bool false)
  end.

(** [self.__eq__(other)], for [other] a [Message].  The logging calls at the
    decision points have no effect on the result. *)
Definition __eq__ (self other : t) : Py.result verdict :=
  if negb (is_comparable self) then Py.Ok NotImplemented
  else if bool_decide (fingerprint self = fingerprint other) then Py.Ok (Bool true)
  else if same_message self other then Py.Ok (Bool true)
  else if same_forwarded self other then Py.Ok (Bool true)
  else if Py.truthy_opt_bool (significant_text self)
          && Py.gt (same_text_ratio self other) (text_ratio_limit self)
  then Py.Ok (Bool true)
  else same_media self other.

End Eq.

End Message.


(** ** Definitions used to state the properties *)

Import Message.

(** The lowercase hexadecimal digest of the UTF-8 encoding of a text. *)
Definition sha256_hex (s : Py.str) : Py.result Py.str :=
  Py.bind (Py.encode_utf8 s) (fun data =>
  Py.Ok (Hashlib.hexdigest (Hashlib.sha256 data))).

Definition is_lower_hex (c : Py.codepoint) : bool :=
  ((48 <=? c) && (c <=? 57) || (97 <=? c) && (c <=? 102))%N.

(** The text that is hashed, as the specification describes it: the string
    forms of the two origin identifiers, the text if it is non-empty, else
    the caption if it is non-empty, else the empty string, and the media
    identifiers joined by commas, all four separated by semicolons. *)
Definition spec_text (m : t) : Py.str :=
  match text m with
  | Some (c :: r) => c :: r
  | _ =>
      match caption m with
      | Some (c :: r) => c :: r
      | _ => []
      end
  end.

Definition spec_media (m : t) : Py.str :=
  match media_ids m with
  | Some ids => Py.join (Py.lit ",") ids
  | None => []
  end.

Definition spec_fingerprint_source (m : t) : Py.str :=
  Py.str_of_opt_int (from_channel_id m) ++ Py.lit ";" ++
  Py.str_of_opt_int (from_message_id m) ++ Py.lit ";" ++
  spec_text m ++ Py.lit ";" ++ spec_media m.

(** The validated keyword arguments of a constructor call that passes none
    of the derived fields: [fingerprint] and [chat_id] are [None] and
    [significant_text] has its default [False]. *)
Definition kwargs (from_id channel_id message_id from_channel_id from_message_id
    forward_from_id : option Z) (text caption : option Py.str)
    (media_ids : option (list Py.str)) : t :=
  Build from_id channel_id message_id from_channel_id from_message_id
        forward_from_id text caption media_ids None (Some false) None.

(** The message that a constructor call returns, for a call that is known
    to succeed; any other call gives the arguments back. *)
Definition constructed (self : t) : t :=
  match __init__ self with
  | Py.Ok m => m
  | Py.Raise _ => self
  end.




(** The overlap ratio as the specification defines it: the size of the
    intersection of the two collections taken as sets, divided by the
    length of the longer collection. *)
Definition overlap_ratio (xs ys : list Py.str) : float :=
  (Py.float_of_nat (size (list_to_set xs ∩ list_to_set ys : gset (list N)))
   / Py.float_of_nat (Nat.max (List.length xs) (List.length ys)))%float.

(** The media rule on albums of at most 32 attachments, as a table of
    booleans: the binary64 test [0.66 <= n / d] against the integer test
    [66 * d <= 100 * n]. *)
Definition media_threshold_table : list (list bool) :=
  List.map (fun d =>
    List.map (fun n =>
      Bool.eqb (Py.ge (Py.float_of_nat n / Py.float_of_nat d)%float 0.66%float)
               (66 * d <=? 100 * n)%nat)
      (seq 0 (S d)))
    (seq 1 32).

(** ** Example messages *)

(** The text of scenario 1 of the specification, 92 characters. *)
Definition long_text : Py.str :=
  Py.lit "Hello world, this is a sufficiently long test message exceeding sixty four characters total.".

(** Scenario 1 of the specification: the same long text seen twice in one
    channel, under two message ids. *)
Definition kw_hello_5 : t :=
  kwargs None (Some (-100123)) (Some 5) None None None (Some long_text) None (Some []).

Definition kw_hello_6 : t :=
  kwargs None (Some (-100123)) (Some 6) None None None (Some long_text) None (Some []).

(** The same content as a caption, seen elsewhere and forwarded by user 3. *)
Definition kw_hello_caption : t :=
  kwargs (Some 7) (Some (-100999)) (Some 41) None None (Some 3) None (Some long_text)
         (Some []).

(** Constructor calls without [media_ids] and without [channel_id]. *)
Definition kw_absent_media : t :=
  kwargs None (Some (-100123)) (Some 5) None None None (Some long_text) None None.

Definition kw_absent_channel : t :=
  kwargs None None (Some 5) None None None (Some long_text) None (Some [Py.lit "m1"]).

(** A post with one attachment and no text, and posts seen without a
    message id: one with another attachment, one with the same one. *)
Definition kw_photo : t :=
  kwargs None (Some (-100123)) (Some 5) None None None None None (Some [Py.lit "m1"]).

Definition kw_other_photo_no_id : t :=
  kwargs None (Some (-100456)) None None None None None None (Some [Py.lit "m2"]).

Definition kw_same_photo_no_id : t :=
  kwargs None (Some (-100456)) None None None None None None (Some [Py.lit "m1"]).

(** An album that lists one attachment three times, seen in two channels. *)
Definition kw_triple_a : t :=
  kwargs None (Some (-100123)) (Some 5) None None None None None
         (Some [Py.lit "m1"; Py.lit "m1"; Py.lit "m1"]).

Definition kw_triple_b : t :=
  kwargs None (Some (-100456)) (Some 8) None None None None None
         (Some [Py.lit "m1"; Py.lit "m1"; Py.lit "m1"]).

(** A long text seen in another channel. *)
Definition kw_hello_elsewhere : t :=
  kwargs None (Some (-100456)) (Some 9) None None None (Some long_text) None (Some []).

(** The message above after the assignment [media_ids = None]. *)
Definition hello_elsewhere_media_unset : t :=
  set_media_ids None (constructed kw_hello_elsewhere).

(** Two texts of 70 characters with their first 49 in common (similarity
    ratio 0.7) and two of 80 characters with their first 60 in common
    (similarity ratio 0.75). *)
Definition text_a70 : Py.str := repeat 97%N 49 ++ repeat 98%N 21.
Definition text_c70 : Py.str := repeat 97%N 49 ++ repeat 99%N 21.
Definition text_a80 : Py.str := repeat 97%N 60 ++ repeat 98%N 20.
Definition text_c80 : Py.str := repeat 97%N 60 ++ repeat 99%N 20.

(** A forward whose origin channel id is the integer 0, the same forward
    with origin channel 7, and an unrelated post with a similar text. *)
Definition kw_origin_zero : t :=
  kwargs None (Some (-100123)) (Some 5) (Some 0) (Some 5) None (Some text_a70) None
         (Some []).

Definition kw_origin_seven : t :=
  kwargs None (Some (-100123)) (Some 5) (Some 7) (Some 5) None (Some text_a70) None
         (Some []).

Definition kw_similar70 : t :=
  kwargs None (Some (-100456)) (Some 8) None None None (Some text_c70) None (Some []).

Definition kw_a80 : t :=
  kwargs None (Some (-100123)) (Some 5) None None None (Some text_a80) None (Some []).

Definition kw_c80 : t :=
  kwargs None (Some (-100456)) (Some 8) None None None (Some text_c80) None (Some []).

(** Scenarios 3 and 4 of the specification: albums without text. *)
Definition album_123 : list Py.str := [Py.lit "m1"; Py.lit "m2"; Py.lit "m3"].
Definition album_124 : list Py.str := [Py.lit "m1"; Py.lit "m2"; Py.lit "m4"].

Definition kw_album_123 : t :=
  kwargs None (Some (-100123)) (Some 5) None None None None None (Some album_123).

Definition kw_album_124 : t :=
  kwargs None (Some (-100456)) (Some 8) None None None None None (Some album_124).

(** A record whose identifiers are all the integer 0. *)
Definition all_zero : t :=
  Build (Some 0) (Some 0) (Some 0) (Some 0) (Some 0) (Some 0) (Some long_text) None
        (Some [Py.lit "m1"]) None (Some true) (Some 0).

(** Scenario 2 of the specification: two forwards of the same origin post
    with unrelated texts. *)
Definition kw_forward_a : t :=
  kwargs None (Some (-100123)) (Some 5) (Some 10) (Some 99) None
         (Some (Py.lit "first")) None (Some [Py.lit "m1"]).

Definition kw_forward_b : t :=
  kwargs None (Some (-100456)) (Some 8) (Some 10) (Some 99) None
         (Some long_text) None (Some [Py.lit "m7"]).

(** A post forwarded by its own author. *)
Definition kw_self_forward : t :=
  kwargs (Some 42) (Some (-100123)) (Some 5) None None (Some 42) (Some long_text) None
         (Some []).

(** Two long captions with half of their text in common on different
    attachments. *)
Definition kw_caption_a : t :=
  kwargs None (Some (-100123)) (Some 5) None None None None
         (Some (repeat 97%N 40 ++ repeat 98%N 40)) (Some [Py.lit "m1"]).

Definition kw_caption_b : t :=
  kwargs None (Some (-100456)) (Some 8) None None None None
         (Some (repeat 97%N 40 ++ repeat 99%N 40)) (Some [Py.lit "m2"]).

(** Two albums with the same attachments in another order, and an album
    that shares two of its three attachments with them. *)
Definition album_321 : list Py.str := [Py.lit "m3"; Py.lit "m2"; Py.lit "m1"].
Definition album_421 : list Py.str := [Py.lit "m4"; Py.lit "m2"; Py.lit "m1"].

(** The fields that a caller passes to the constructor, without the three
    derived ones. *)
Definition raw_fields (m : t) :=
  (from_id m, channel_id m, message_id m, from_channel_id m, from_message_id m,
   forward_from_id m, text m, caption m, media_ids m).

(** The fields of the right operand that [__eq__] reads. *)
Definition fields_read_of_other (m : t) :=
  (channel_id m, message_id m, from_channel_id m, from_message_id m,
   text m, caption m, media_ids m, fingerprint m).

(** Two posts with different contents whose hashed texts coincide: a text
    that ends in ";m1" without attachments, and the text before it with the
    attachment "m1;". *)
Definition kw_text_with_separator : t :=
  kwargs None (Some (-100123)) (Some 5) None None None
         (Some (long_text ++ Py.lit ";m1")) None (Some []).

Definition kw_media_with_separator : t :=
  kwargs None (Some (-100456)) (Some 8) None None None
         (Some long_text) None (Some [Py.lit "m1;"]).

(** A constructor call that also passes the three derived fields. *)
Definition kw_hello_5_with_derived : t :=
  Build None (Some (-100123)) (Some 5) None None None (Some long_text) None (Some [])
        (Some (Py.lit "0000000000000000")) (Some false) (Some 999).

(** A post without text or caption, with two of the three attachments of
    [album_123]. *)
Definition kw_album_12 : t :=
  kwargs None (Some (-100456)) (Some 8) None None None None None
         (Some [Py.lit "m1"; Py.lit "m2"]).

(** A long caption on the album [album_123]. *)
Definition kw_album_123_captioned : t :=
  kwargs None (Some (-100123)) (Some 5) None None None None (Some long_text)
         (Some album_123).

(** ** Tactics *)

(** Case analysis on every condition of the cascade that is still in the
    goal. *)
Ltac case_ifs :=
  repeat match goal with
         | |- context [if ?c then _ else _] => destruct c
         end.

(** A closed goal that evaluation decides. *)
Ltac by_evaluation := vm_compute; reflexivity.

(** * Properties *)

(** ** The library models on known values *)

Example sha256_of_empty :
  sha256_hex [] =
  Py.Ok (Py.lit "e3b0c44298fc1c149afbf4c8996fb92427ae41e4649b934ca495991b7852b855").
Proof. by_evaluation. Qed.

Example sha256_of_abc :
  sha256_hex (Py.lit "abc") =
  Py.Ok (Py.lit "ba7816bf8f01cfea414140de5dae2223b00361a396177a9cb410ff61f20015ad").
Proof. by_evaluation. Qed.

Example sha256_of_two_blocks :
  sha256_hex (Py.lit "abcdbcdecdefdefgefghfghighijhijkijkljklmklmnlmnomnopnopq") =
  Py.Ok (Py.lit "248d6a61d20638b8e5c026930c3e6039a33ce45964ff2167f6ecedd419db06c1").
Proof. by_evaluation. Qed.

Example utf8_of_euro_and_emoji :
  Py.encode_utf8 [0x20AC; 0x1F600]%N = Py.Ok [0xE2; 0x82; 0xAC; 0xF0; 0x9F; 0x98; 0x80].
Proof. reflexivity. Qed.

Example utf8_of_surrogate : Py.encode_utf8 [0xD800]%N = Py.Raise Py.UnicodeEncodeError.
Proof. reflexivity. Qed.

Example ratio_abcd_bcde : Difflib.ratio (Py.lit "abcd") (Py.lit "bcde") = 0.75%float.
Proof. by_evaluation. Qed.

Example matches_fox_dog :
  Difflib.matches (Py.lit "the quick brown fox jumps over the lazy dog")
                  (Py.lit "the quick brown dog jumps over the lazy fox") = 39%nat.
Proof. by_evaluation. Qed.

(** The automatic junk heuristic: in a second sequence of 200 elements or
    more, an element that makes up more than 1% of it seeds no match. *)
Example ratio_with_popular_element :
  Difflib.ratio (120%N :: repeat 97%N 250) (repeat 97%N 250) = 0%float /\
  Difflib.ratio (120%N :: repeat 97%N 150) (repeat 97%N 150)
  = (2 * 150 / 301)%float /\
  Difflib.ratio (repeat 97%N 250) (repeat 97%N 250) = 1%float.
Proof. repeat split; by_evaluation. Qed.

Example chat_id_strips_prefix :
  __chat_id (Build None (Some (-100123)) None None None None None None None None None None)
  = Py.Ok 123.
Proof. reflexivity. Qed.

(** ** The hexadecimal digest *)

Lemma hex_digit_lower (x : Z) : is_lower_hex (Hashlib.hex_digit (Z.land x 0xF)) = true.
Proof.
  change 0xF with (Z.ones 4). rewrite Z.land_ones by lia.
  pose proof (Z.mod_pos_bound x (2 ^ 4) ltac:(lia)) as Hb.
  unfold Hashlib.hex_digit, is_lower_hex.
  destruct (Z.ltb_spec (x mod 2 ^ 4) 10).
  - apply orb_true_iff; left. apply andb_true_iff; split; apply N.leb_le; lia.
  - apply orb_true_iff; right. apply andb_true_iff; split; apply N.leb_le; lia.
Qed.

Lemma hex32_lower (w : Z) : forallb is_lower_hex (Hashlib.hex32 w) = true.
Proof.
  unfold Hashlib.hex32. cbn [List.map forallb].
  rewrite !hex_digit_lower. reflexivity.
Qed.

Lemma hexdigest_length (d : Hashlib.digest) : List.length (Hashlib.hexdigest d) = 64%nat.
Proof. reflexivity. Qed.

Lemma hexdigest_lower (d : Hashlib.digest) :
  forallb is_lower_hex (Hashlib.hexdigest d) = true.
Proof.
  unfold Hashlib.hexdigest. rewrite !forallb_app, !hex32_lower. reflexivity.
Qed.

Lemma forallb_firstn {A : Type} (f : A -> bool) (n : nat) (l : list A) :
  forallb f l = true -> forallb f (firstn n l) = true.
Proof.
  revert n; induction l as [|x l IH]; intros [|n]; simpl; auto.
  intros H; apply andb_true_iff in H as [Hx Hl].
  rewrite Hx; simpl; auto.
Qed.

(** ** The constructor *)

Lemma text_or_caption_spec (m : t) : text_or_caption m = spec_text m.
Proof.
  unfold text_or_caption, spec_text, Py.or_str.
  destruct (text m) as [[|c r]|]; simpl; try reflexivity;
    destruct (caption m) as [[|c' r']|]; reflexivity.
Qed.

Lemma init_inv (s m : t) :
  __init__ s = Py.Ok m ->
  exists c f,
    __chat_id s = Py.Ok c /\ __gen_fingerprint s = Py.Ok f /\
    m = Build (from_id s) (channel_id s) (message_id s) (from_channel_id s)
              (from_message_id s) (forward_from_id s) (text s) (caption s)
              (media_ids s) (Some f)
              (Some (64 <? List.length (text_or_caption s))%nat) (Some c).
Proof.
  unfold __init__. destruct (__chat_id s) as [c|e] eqn:Hc; simpl; [|discriminate].
  change (__gen_fingerprint (set_chat_id (Some c) s)) with (__gen_fingerprint s).
  destruct (__gen_fingerprint s) as [f|e] eqn:Hf; simpl; [|discriminate].
  intros H; injection H as <-. exists c, f. auto.
Qed.

Lemma gen_fingerprint_inv (s : t) (f : Py.str) :
  __gen_fingerprint s = Py.Ok f ->
  exists ids data,
    media_ids s = Some ids /\
    Py.encode_utf8 (spec_fingerprint_source s) = Py.Ok data /\
    f = firstn 16 (Hashlib.hexdigest (Hashlib.sha256 data)).
Proof.
  unfold __gen_fingerprint, spec_fingerprint_source, spec_media.
  destruct (media_ids s) as [ids|]; simpl; [|discriminate].
  rewrite text_or_caption_spec.
  match goal with |- Py.bind ?e _ = _ -> _ => destruct e as [data|] eqn:He end;
    simpl; [|discriminate].
  intros H; injection H as <-. exists ids, data. auto.
Qed.

Lemma init_without_channel_id (s : t) :
  channel_id s = None -> __init__ s = Py.Raise Py.ValueError.
Proof. intros H. unfold __init__, __chat_id. rewrite H. reflexivity. Qed.

Lemma gen_fingerprint_without_media_ids (s : t) :
  media_ids s = None -> __gen_fingerprint s = Py.Raise Py.TypeError.
Proof. intros H. unfold __gen_fingerprint. rewrite H. reflexivity. Qed.

Lemma init_gives_present_fields (s m : t) :
  __init__ s = Py.Ok m ->
  (exists c, channel_id m = Some c) /\ (exists ids, media_ids m = Some ids).
Proof.
  intros H. destruct (init_inv s m H) as (c & f & Hc & Hf & ->).
  destruct (gen_fingerprint_inv s f Hf) as (ids & data & Hm & _).
  split; simpl.
  - destruct (channel_id s) as [z|] eqn:Hz; [eauto|].
    rewrite (init_without_channel_id s Hz) in H. discriminate.
  - eauto.
Qed.

Example init_hello_5 :
  __init__ kw_hello_5 =
  Py.Ok (Build None (Some (-100123)) (Some 5) None None None (Some long_text) None
               (Some []) (Some (Py.lit "c0537c80e8170798")) (Some true) (Some 123)).
Proof. by_evaluation. Qed.

(** C3 (the code at the failing input).  A constructor call whose
    [media_ids] is absent does not return a message: joining [None] raises
    TypeError inside the fingerprint computation, and the exception leaves
    the constructor.  No fingerprint is produced. *)
Theorem init_raises_on_absent_media_ids :
  media_ids kw_absent_media = None /\
  __chat_id kw_absent_media = Py.Ok 123 /\
  __gen_fingerprint kw_absent_media = Py.Raise Py.TypeError /\
  __init__ kw_absent_media = Py.Raise Py.TypeError.
Proof. repeat split; reflexivity. Qed.

(** C4 (the code at the failing input).  A constructor call whose
    [channel_id] is absent does not return a message: the text "None" is
    not the text of an int, so the chat id derivation raises ValueError and
    the exception leaves the constructor. *)
Theorem init_raises_on_absent_channel_id :
  channel_id kw_absent_channel = None /\
  __chat_id kw_absent_channel = Py.Raise Py.ValueError /\
  __init__ kw_absent_channel = Py.Raise Py.ValueError.
Proof. repeat split; reflexivity. Qed.

(** ** The fingerprint *)

(** C5.  The fingerprint of every message that the constructor returns is
    the first 16 characters of the lowercase hexadecimal SHA-256 digest of
    the text made of the string form of [from_channel_id], the string form
    of [from_message_id], the text if non-empty else the caption if
    non-empty else the empty string, and the comma-joined [media_ids], in
    this order and separated by semicolons.  It has 16 characters, all of
    them lowercase hexadecimal digits. *)
Theorem fingerprint_formula (s m : t) :
  __init__ s = Py.Ok m ->
  exists h,
    sha256_hex (spec_fingerprint_source m) = Py.Ok h /\
    fingerprint m = Some (firstn 16 h) /\
    List.length (firstn 16 h) = 16%nat /\
    forallb is_lower_hex (firstn 16 h) = true.
Proof.
  intros H. destruct (init_inv s m H) as (c & f & _ & Hf & ->).
  destruct (gen_fingerprint_inv s f Hf) as (ids & data & Hm & He & ->).
  exists (Hashlib.hexdigest (Hashlib.sha256 data)).
  unfold sha256_hex.
  change (spec_fingerprint_source (Build _ _ _ _ _ _ _ _ _ _ _ _))
    with (spec_fingerprint_source s).
  rewrite He. simpl Py.bind. repeat split.
  apply forallb_firstn, hexdigest_lower.
Qed.

Lemma fingerprint_formula_witness :
  exists h,
    sha256_hex (spec_fingerprint_source (constructed kw_hello_5)) = Py.Ok h /\
    fingerprint (constructed kw_hello_5) = Some (firstn 16 h) /\
    List.length (firstn 16 h) = 16%nat /\
    forallb is_lower_hex (firstn 16 h) = true.
Proof.
  apply (fingerprint_formula kw_hello_5 (constructed kw_hello_5)).
  by_evaluation.
Defined.

Lemma gen_fingerprint_ext (m1 m2 : t) :
  from_channel_id m1 = from_channel_id m2 ->
  from_message_id m1 = from_message_id m2 ->
  text_or_caption m1 = text_or_caption m2 ->
  media_ids m1 = media_ids m2 ->
  __gen_fingerprint m1 = __gen_fingerprint m2.
Proof.
  intros H1 H2 H3 H4. unfold __gen_fingerprint. rewrite H1, H2, H3, H4. reflexivity.
Qed.

(** C6.  Two messages that the constructor returns and that agree on
    [from_channel_id], [from_message_id], the text-or-caption and
    [media_ids] have the same fingerprint, whatever their other fields
    ([channel_id], [message_id], [forward_from_id], [from_id], and which of
    [text] and [caption] carries the content). *)
Theorem fingerprint_depends_on_tuple_only (s1 s2 m1 m2 : t) :
  __init__ s1 = Py.Ok m1 ->
  __init__ s2 = Py.Ok m2 ->
  from_channel_id m1 = from_channel_id m2 ->
  from_message_id m1 = from_message_id m2 ->
  text_or_caption m1 = text_or_caption m2 ->
  media_ids m1 = media_ids m2 ->
  fingerprint m1 = fingerprint m2.
Proof.
  intros I1 I2.
  destruct (init_inv s1 m1 I1) as (c1 & f1 & _ & F1 & ->).
  destruct (init_inv s2 m2 I2) as (c2 & f2 & _ & F2 & ->).
  cbn [from_channel_id from_message_id media_ids fingerprint].
  change (text_or_caption (Build _ _ _ _ _ _ (text s1) (caption s1) _ _ _ _))
    with (text_or_caption s1).
  change (text_or_caption (Build _ _ _ _ _ _ (text s2) (caption s2) _ _ _ _))
    with (text_or_caption s2).
  intros H1 H2 H3 H4.
  pose proof (gen_fingerprint_ext s1 s2 H1 H2 H3 H4) as E.
  rewrite F1, F2 in E. injection E as ->. reflexivity.
Qed.

Lemma fingerprint_depends_on_tuple_only_witness :
  channel_id (constructed kw_hello_5) <> channel_id (constructed kw_hello_caption) /\
  message_id (constructed kw_hello_5) <> message_id (constructed kw_hello_caption) /\
  forward_from_id (constructed kw_hello_5) <> forward_from_id (constructed kw_hello_caption) /\
  fingerprint (constructed kw_hello_5) = fingerprint (constructed kw_hello_caption).
Proof.
  split; [vm_compute; discriminate|].
  split; [vm_compute; discriminate|].
  split; [vm_compute; discriminate|].
  apply (fingerprint_depends_on_tuple_only kw_hello_5 kw_hello_caption);
    by_evaluation.
Defined.

(** ** Comparability and the outcome of [__eq__] *)

Lemma truthy_int_false (x : option Z) :
  Py.truthy_int x = false <-> x = None \/ x = Some 0.
Proof.
  destruct x as [z|]; simpl.
  - rewrite negb_false_iff, Z.eqb_eq. split.
    + intros ->. right. reflexivity.
    + intros [H|H]; [discriminate|]. injection H as ->. reflexivity.
  - split; auto.
Qed.

Lemma truthy_int_true (x : option Z) :
  Py.truthy_int x = true <-> exists z, x = Some z /\ z <> 0.
Proof.
  destruct x as [z|]; simpl.
  - rewrite negb_true_iff, Z.eqb_neq. split.
    + intros H. exists z. auto.
    + intros (z' & H & Hz). injection H as ->. exact Hz.
  - split; [discriminate|]. intros (z & H & _). discriminate.
Qed.

Lemma truthy_opt_seq_false {A : Type} (x : option (list A)) :
  Py.truthy_opt_seq x = false <-> x = None \/ x = Some [].
Proof.
  destruct x as [[|y l]|]; simpl; split; auto; try discriminate.
  intros [H|H]; discriminate.
Qed.

Lemma truthy_opt_bool_false (x : option bool) :
  Py.truthy_opt_bool x = false <-> x <> Some true.
Proof.
  destruct x as [[|]|]; simpl; split; try congruence; try discriminate.
Qed.

Lemma not_comparable_iff (a : t) :
  is_comparable a = false <->
  (channel_id a = None \/ channel_id a = Some 0) \/
  (message_id a = None \/ message_id a = Some 0) \/
  ((media_ids a = None \/ media_ids a = Some []) /\ significant_text a <> Some true) \/
  (exists f, f <> 0 /\ forward_from_id a = Some f /\ from_id a = Some f).
Proof.
  rewrite <- !truthy_int_false, <- truthy_opt_seq_false, <- truthy_opt_bool_false.
  unfold is_comparable, ids_present, significant_content, forward_self.
  destruct (Py.truthy_int (channel_id a)); [|simpl; tauto].
  destruct (Py.truthy_int (message_id a)); [|simpl; tauto].
  destruct (Py.truthy_opt_seq (media_ids a)) eqn:Hm,
    (Py.truthy_opt_bool (significant_text a)) eqn:Hs; simpl;
    try (split; [|reflexivity]; auto; fail);
    rewrite negb_false_iff, andb_true_iff, bool_decide_eq_true, truthy_int_true;
    (split;
     [ intros ((f & Hf & Hf0) & He); right; right; right;
       exists f; rewrite <- He; auto
     | intros [H|[H|[H|(f & Hf0 & Hf & Hi)]]];
       [discriminate|discriminate|destruct H; discriminate|];
       split; [exists f; auto|congruence] ]).
Qed.

(** The division in the media rule is never by zero: it is only reached
    with a non-empty [media_ids] on the left. *)
Lemma truediv_by_max (n : nat) (la lb : list Py.str) :
  Py.truthy_seq la = true ->
  Py.truediv n (Nat.max (List.length la) (List.length lb))
  = Py.Ok (Py.float_of_nat n
           / Py.float_of_nat (Nat.max (List.length la) (List.length lb)))%float.
Proof.
  intros H. destruct la as [|x la]; [discriminate|].
  destruct (Nat.max (List.length (x :: la)) (List.length lb)) eqn:Hmax.
  - simpl in Hmax. lia.
  - reflexivity.
Qed.

Section EqProperties.

Variable ratio : Py.str -> Py.str -> float.

(** The media rules when both operands carry a list. *)
Lemma same_media_unfold (a b : t) (la lb : list Py.str) :
  media_ids a = Some la ->
  Py.truthy_seq la = true ->
  media_ids b = Some lb ->
  same_media ratio a b =
  if Py.truthy_opt_bool (significant_text a)
     && Py.gt (same_text_ratio ratio a b) text_ratio_media_limit
  then Py.Ok (Bool true)
  else Py.Ok (Bool (Py.ge (overlap_ratio la lb) media_ratio_limit)).
Proof.
  intros Ha Hla Hb. unfold same_media. rewrite Ha, Hb, Hla.
  cbn [iterable Py.bind].
  rewrite (truediv_by_max _ la lb Hla). cbn [Py.bind].
  change (List.length (same_media_list la lb))
    with (size (list_to_set la ∩ list_to_set lb : gset (list N))).
  fold (overlap_ratio la lb).
  destruct (_ && _); [reflexivity|].
  destruct (Py.ge _ _); reflexivity.
Qed.

Lemma same_media_without_attachments (a b : t) :
  Py.truthy_opt_seq (media_ids a) = false ->
  same_media ratio a b = Py.Ok (Bool false).
Proof.
  unfold same_media. destruct (media_ids a) as [la|]; [|reflexivity].
  simpl. intros ->. reflexivity.
Qed.

Lemma same_media_is_bool_or_type_error (a b : t) :
  (exists v, same_media ratio a b = Py.Ok (Bool v)) \/
  (same_media ratio a b = Py.Raise Py.TypeError /\
   Py.truthy_opt_seq (media_ids a) = true /\ media_ids b = None).
Proof.
  destruct (Py.truthy_opt_seq (media_ids a)) eqn:Ha.
  - destruct (media_ids a) as [la|] eqn:Hla; [|discriminate]. simpl in Ha.
    destruct (media_ids b) as [lb|] eqn:Hlb.
    + left. rewrite (same_media_unfold a b la lb Hla Ha Hlb).
      destruct (_ && _); eauto.
    + right. unfold same_media. rewrite Hla, Hlb, Ha. auto.
  - left. rewrite (same_media_without_attachments a b Ha). eauto.
Qed.

Lemma eq_unfold_comparable (a b : t) :
  is_comparable a = true ->
  __eq__ ratio a b =
  if bool_decide (fingerprint a = fingerprint b) then Py.Ok (Bool true)
  else if same_message a b then Py.Ok (Bool true)
  else if same_forwarded a b then Py.Ok (Bool true)
  else if Py.truthy_opt_bool (significant_text a)
          && Py.gt (same_text_ratio ratio a b) (text_ratio_limit a)
  then Py.Ok (Bool true)
  else same_media ratio a b.
Proof. intros H. unfold __eq__. rewrite H. reflexivity. Qed.

Lemma eq_unfold_at_text_rule (a b : t) :
  is_comparable a = true ->
  fingerprint a <> fingerprint b ->
  same_message a b = false ->
  same_forwarded a b = false ->
  __eq__ ratio a b =
  if Py.truthy_opt_bool (significant_text a)
     && Py.gt (same_text_ratio ratio a b) (text_ratio_limit a)
  then Py.Ok (Bool true)
  else same_media ratio a b.
Proof.
  intros Hc Hf Hm Hw. rewrite (eq_unfold_comparable a b Hc).
  rewrite bool_decide_eq_false_2 by exact Hf. rewrite Hm, Hw. reflexivity.
Qed.

Lemma eq_is_verdict_or_type_error (a b : t) :
  (exists v, __eq__ ratio a b = Py.Ok v) \/
  (__eq__ ratio a b = Py.Raise Py.TypeError /\
   is_comparable a = true /\
   Py.truthy_opt_seq (media_ids a) = true /\ media_ids b = None).
Proof.
  destruct (is_comparable a) eqn:Hc.
  - rewrite (eq_unfold_comparable a b Hc).
    case_ifs;
      try (left; eauto; fail).
    destruct (same_media_is_bool_or_type_error a b) as [[v ->]|(-> & H1 & H2)];
      [left; eauto | right; auto].
  - left. unfold __eq__. rewrite Hc. simpl. eauto.
Qed.

End EqProperties.

Example photo_is_comparable : is_comparable (constructed kw_photo) = true.
Proof. by_evaluation. Qed.

Example constructed_without_message_id :
  __init__ kw_other_photo_no_id =
  Py.Ok (Build None (Some (-100456)) None None None None None None
               (Some [Py.lit "m2"]) (Some (Py.lit "b69e4f2b8d741444")) (Some false)
               (Some 456)).
Proof. by_evaluation. Qed.

(** C1 (counterexample).  The left operand is comparable and the right one
    is not (it has no [message_id]), yet the evaluation returns a boolean:
    no-match against a post with another attachment, match against a post
    with the same attachment. *)
Lemma eq_ignores_comparability_of_right_operand :
  is_comparable (constructed kw_photo) = true /\
  is_comparable (constructed kw_other_photo_no_id) = false /\
  is_comparable (constructed kw_same_photo_no_id) = false /\
  __eq__ Difflib.ratio (constructed kw_photo) (constructed kw_other_photo_no_id)
  = Py.Ok (Bool false) /\
  __eq__ Difflib.ratio (constructed kw_photo) (constructed kw_same_photo_no_id)
  = Py.Ok (Bool true).
Proof. repeat split; by_evaluation. Qed.

(** C1 (amended).  The evaluation of [a] against [b] returns the
    incomparable outcome exactly when [a], the operand whose [__eq__] is
    evaluated, fails comparability: a [channel_id] or [message_id] that is
    absent or zero, or neither a non-empty [media_ids] nor significant text,
    or a self-forward.  The comparability of [b] is not consulted. *)
Theorem incomparable_iff_left_operand_not_comparable
    (ratio : Py.str -> Py.str -> float) (a b : t) :
  (__eq__ ratio a b = Py.Ok NotImplemented <-> is_comparable a = false) /\
  (is_comparable a = false <->
   (channel_id a = None \/ channel_id a = Some 0) \/
   (message_id a = None \/ message_id a = Some 0) \/
   ((media_ids a = None \/ media_ids a = Some []) /\
    significant_text a <> Some true) \/
   (exists f, f <> 0 /\ forward_from_id a = Some f /\ from_id a = Some f)).
Proof.
  split; [|apply not_comparable_iff].
  split.
  - destruct (is_comparable a) eqn:Hc; [|reflexivity].
    rewrite (eq_unfold_comparable ratio a b Hc).
    case_ifs;
      try discriminate.
    destruct (same_media_is_bool_or_type_error ratio a b) as [[v ->]|(-> & _)];
      discriminate.
  - intros Hc. unfold __eq__. rewrite Hc. reflexivity.
Qed.

(** C2 (the code at the failing input).  Both operands are comparable, the
    left one has an attachment, the right one has significant text and a
    [media_ids] that is [None]: no earlier rule matches and the media rule
    raises TypeError when it builds the set of the right operand's
    attachments.  Against the same message with an empty list the result
    is no-match. *)
Theorem eq_raises_on_absent_media_ids_of_right_operand :
  is_comparable (constructed kw_photo) = true /\
  is_comparable hello_elsewhere_media_unset = true /\
  media_ids hello_elsewhere_media_unset = None /\
  __eq__ Difflib.ratio (constructed kw_photo) hello_elsewhere_media_unset
  = Py.Raise Py.TypeError /\
  media_ids (constructed kw_hello_elsewhere) = Some [] /\
  __eq__ Difflib.ratio (constructed kw_photo) (constructed kw_hello_elsewhere)
  = Py.Ok (Bool false).
Proof. repeat split; by_evaluation. Qed.

(** C7.  When both messages are comparable and their fingerprints are
    equal, the evaluation returns match, whatever the later rules of the
    cascade would say. *)
Theorem equal_fingerprints_match (ratio : Py.str -> Py.str -> float) (a b : t) :
  is_comparable a = true ->
  is_comparable b = true ->
  fingerprint a = fingerprint b ->
  __eq__ ratio a b = Py.Ok (Bool true).
Proof.
  intros Ha _ Hf. rewrite (eq_unfold_comparable ratio a b Ha).
  rewrite bool_decide_eq_true_2 by exact Hf. reflexivity.
Qed.

(** Here every later rule says no: the two posts differ in channel, have
    no origin and no text, and their overlap ratio is 1/3. *)
Lemma equal_fingerprints_match_witness :
  same_message (constructed kw_triple_a) (constructed kw_triple_b) = false /\
  same_forwarded (constructed kw_triple_a) (constructed kw_triple_b) = false /\
  same_media Difflib.ratio (constructed kw_triple_a) (constructed kw_triple_b)
  = Py.Ok (Bool false) /\
  __eq__ Difflib.ratio (constructed kw_triple_a) (constructed kw_triple_b)
  = Py.Ok (Bool true).
Proof.
  split; [by_evaluation|].
  split; [by_evaluation|].
  split; [by_evaluation|].
  apply (equal_fingerprints_match Difflib.ratio
           (constructed kw_triple_a) (constructed kw_triple_b));
    by_evaluation.
Defined.

(** Scenario 1 of the specification. *)
Example same_text_under_two_message_ids :
  fingerprint (constructed kw_hello_5) = fingerprint (constructed kw_hello_6) /\
  __eq__ Difflib.ratio (constructed kw_hello_5) (constructed kw_hello_6)
  = Py.Ok (Bool true).
Proof. split; by_evaluation. Qed.

(** ** The text rule *)

Example ratios_of_the_examples :
  Difflib.ratio text_a70 text_c70 = 0.7%float /\
  Difflib.ratio text_a80 text_c80 = 0.75%float /\
  Py.gt 0.7 0.66 = true /\ Py.gt 0.7 0.75 = false /\ Py.gt 0.75 0.75 = false.
Proof. repeat split; by_evaluation. Qed.

(** C8 (counterexample).  A message whose [from_channel_id] is present with
    the value 0, and whose [from_message_id] is present, keeps the threshold
    0.75: a text ratio of 0.7 is no match, although it exceeds 0.66.  The
    same message with origin channel 7 matches. *)
Lemma threshold_not_lowered_for_zero_origin :
  from_channel_id (constructed kw_origin_zero) = Some 0 /\
  from_message_id (constructed kw_origin_zero) = Some 5 /\
  text_ratio_limit (constructed kw_origin_zero) = 0.75%float /\
  same_text_ratio Difflib.ratio (constructed kw_origin_zero) (constructed kw_similar70)
  = 0.7%float /\
  __eq__ Difflib.ratio (constructed kw_origin_zero) (constructed kw_similar70)
  = Py.Ok (Bool false) /\
  __eq__ Difflib.ratio (constructed kw_origin_seven) (constructed kw_similar70)
  = Py.Ok (Bool true).
Proof. repeat split; by_evaluation. Qed.

Lemma text_ratio_limit_not_above_itself (a : t) :
  Py.gt (text_ratio_limit a) (text_ratio_limit a) = false.
Proof. unfold text_ratio_limit. destruct (_ && _); reflexivity. Qed.

(** C8 (amended).  In the text rule, reached when [a] is comparable with
    significant text and no earlier rule matched, the threshold is 0.66
    when [from_channel_id] and [from_message_id] of [a] are both present and
    non-zero, and 0.75 otherwise.  The comparison is strict: a ratio above
    the threshold is a match; a ratio that is not above it, and the
    threshold itself in particular, is not matched by this rule, and the
    result is that of the media rules (no match when [a] has no
    attachment). *)
Theorem text_rule_threshold (ratio : Py.str -> Py.str -> float) (a b : t) :
  is_comparable a = true ->
  fingerprint a <> fingerprint b ->
  same_message a b = false ->
  same_forwarded a b = false ->
  significant_text a = Some true ->
  ((exists c m, from_channel_id a = Some c /\ c <> 0 /\
                from_message_id a = Some m /\ m <> 0) ->
   text_ratio_limit a = 0.66%float) /\
  ((from_channel_id a = None \/ from_channel_id a = Some 0 \/
    from_message_id a = None \/ from_message_id a = Some 0) ->
   text_ratio_limit a = 0.75%float) /\
  (PrimFloat.ltb (text_ratio_limit a) (same_text_ratio ratio a b) = true ->
   __eq__ ratio a b = Py.Ok (Bool true)) /\
  (PrimFloat.ltb (text_ratio_limit a) (same_text_ratio ratio a b) = false ->
   __eq__ ratio a b = same_media ratio a b) /\
  (same_text_ratio ratio a b = text_ratio_limit a ->
   __eq__ ratio a b = same_media ratio a b /\
   (Py.truthy_opt_seq (media_ids a) = false ->
    __eq__ ratio a b = Py.Ok (Bool false))).
Proof.
  intros Hc Hf Hm Hw Hs.
  pose proof (eq_unfold_at_text_rule ratio a b Hc Hf Hm Hw) as E.
  rewrite Hs in E. cbn [Py.truthy_opt_bool andb] in E. unfold Py.gt in E.
  split; [|split; [|split; [|split]]].
  - intros (c & m & Hfc & Hc0 & Hfm & Hm0). unfold text_ratio_limit, Py.truthy_int.
    rewrite Hfc, Hfm. apply Z.eqb_neq in Hc0, Hm0. rewrite Hc0, Hm0. reflexivity.
  - unfold text_ratio_limit, Py.truthy_int. intros H.
    destruct (from_channel_id a) as [[|p|p]|], (from_message_id a) as [[|q|q]|];
      try reflexivity; exfalso; destruct H as [H|[H|[H|H]]]; discriminate.
  - intros Hr. rewrite Hr in E. exact E.
  - intros Hr. rewrite Hr in E. exact E.
  - intros Hr. rewrite Hr in E.
    pose proof (text_ratio_limit_not_above_itself a) as Hn. unfold Py.gt in Hn.
    rewrite Hn in E. split; [exact E|].
    intros Hmed. rewrite E. apply same_media_without_attachments, Hmed.
Qed.

Lemma text_rule_threshold_witness :
  same_text_ratio Difflib.ratio (constructed kw_a80) (constructed kw_c80)
  = text_ratio_limit (constructed kw_a80) /\
  __eq__ Difflib.ratio (constructed kw_a80) (constructed kw_c80) = Py.Ok (Bool false).
Proof.
  assert (Hr : same_text_ratio Difflib.ratio (constructed kw_a80) (constructed kw_c80)
               = text_ratio_limit (constructed kw_a80))
    by (by_evaluation).
  split; [exact Hr|].
  assert (Hf : fingerprint (constructed kw_a80) <> fingerprint (constructed kw_c80))
    by (vm_compute; discriminate).
  destruct (text_rule_threshold Difflib.ratio (constructed kw_a80) (constructed kw_c80)
              ltac:(by_evaluation) Hf
              ltac:(by_evaluation) ltac:(by_evaluation)
              ltac:(by_evaluation)) as (_ & _ & _ & _ & H).
  apply (H Hr). by_evaluation.
Defined.

(** ** The media rules *)

(** On albums of at most 32 attachments the binary64 test of the media rule
    is the test [66 * d <= 100 * n] on integers. *)
Lemma media_threshold_on_small_albums :
  forallb (forallb id) media_threshold_table = true.
Proof. by_evaluation. Qed.

(** C9.  When [a] is comparable, no earlier rule of the cascade matched and
    [a] has attachments, the evaluation against a [b] that carries a list of
    attachments (as every message that the constructor returns does)
    returns match exactly when the overlap ratio, the size of the
    intersection of the two lists as sets divided by the length of the
    longer list, is greater than or equal to 0.66, and no-match
    otherwise. *)
Theorem media_overlap_rule
    (ratio : Py.str -> Py.str -> float) (a b : t) (la lb : list Py.str) :
  is_comparable a = true ->
  fingerprint a <> fingerprint b ->
  same_message a b = false ->
  same_forwarded a b = false ->
  (significant_text a = Some true ->
   PrimFloat.ltb (text_ratio_limit a) (same_text_ratio ratio a b) = false) ->
  (significant_text a = Some true ->
   PrimFloat.ltb text_ratio_media_limit (same_text_ratio ratio a b) = false) ->
  media_ids a = Some la ->
  la <> [] ->
  media_ids b = Some lb ->
  (__eq__ ratio a b = Py.Ok (Bool true) <->
   PrimFloat.leb 0.66 (overlap_ratio la lb) = true) /\
  (__eq__ ratio a b = Py.Ok (Bool false) <->
   PrimFloat.leb 0.66 (overlap_ratio la lb) = false).
Proof.
  intros Hc Hf Hm Hw R4 R5 Ha Hla Hb.
  assert (Hseq : Py.truthy_seq la = true) by (destruct la; [congruence|reflexivity]).
  rewrite (eq_unfold_at_text_rule ratio a b Hc Hf Hm Hw).
  rewrite (same_media_unfold ratio a b la lb Ha Hseq Hb).
  unfold Py.gt, Py.ge, media_ratio_limit.
  destruct (significant_text a) as [[|]|]; cbn [Py.truthy_opt_bool andb];
    try rewrite (R4 eq_refl); try rewrite (R5 eq_refl);
    destruct (PrimFloat.leb 0.66 (overlap_ratio la lb));
    split; split; intros H; try reflexivity; try discriminate.
Qed.

Lemma media_overlap_rule_witness :
  overlap_ratio album_123 album_124 = (2 / 3)%float /\
  __eq__ Difflib.ratio (constructed kw_album_123) (constructed kw_album_124)
  = Py.Ok (Bool true).
Proof.
  split; [by_evaluation|].
  assert (Hf : fingerprint (constructed kw_album_123)
               <> fingerprint (constructed kw_album_124))
    by (vm_compute; discriminate).
  apply (media_overlap_rule Difflib.ratio (constructed kw_album_123)
           (constructed kw_album_124) album_123 album_124); try exact Hf;
    try (by_evaluation).
  discriminate.
Defined.

(** Scenario 4 of the specification. *)
Example one_photo_against_another :
  __eq__ Difflib.ratio (constructed kw_photo) (constructed kw_other_photo_no_id)
  = Py.Ok (Bool false).
Proof. by_evaluation. Qed.

(** ** Identifiers with the value zero *)

(** C10.  An identifier that is present with the value 0 counts as absent:
    a [channel_id] or a [message_id] of 0 makes the message fail
    comparability, so that its evaluation against any message is the
    incomparable outcome; a [forward_from_id] of 0 is no self-forward, even
    when [from_id] is 0 as well; and with a [from_channel_id] or a
    [from_message_id] of 0 the text threshold stays 0.75. *)
Theorem zero_identifiers_count_as_absent (a : t) :
  (channel_id a = Some 0 \/ message_id a = Some 0 ->
   is_comparable a = false /\
   forall ratio b, __eq__ ratio a b = Py.Ok NotImplemented) /\
  (forward_from_id a = Some 0 ->
   forward_self a = false /\
   is_comparable a = ids_present a && significant_content a) /\
  (from_channel_id a = Some 0 \/ from_message_id a = Some 0 ->
   text_ratio_limit a = 0.75%float).
Proof.
  split; [|split].
  - intros H.
    assert (Hc : is_comparable a = false).
    { unfold is_comparable, ids_present.
      destruct H as [-> | ->]; simpl; [reflexivity|].
      rewrite andb_false_r. reflexivity. }
    split; [exact Hc|]. intros ratio b. unfold __eq__. rewrite Hc. reflexivity.
  - intros H. unfold is_comparable, forward_self. rewrite H. simpl.
    split; [reflexivity|]. rewrite andb_true_r. reflexivity.
  - unfold text_ratio_limit. intros [-> | ->]; simpl; [reflexivity|].
    rewrite andb_false_r. reflexivity.
Qed.

Lemma zero_identifiers_count_as_absent_witness :
  is_comparable all_zero = false /\
  forward_from_id all_zero = from_id all_zero /\
  forward_self all_zero = false /\
  text_ratio_limit all_zero = 0.75%float.
Proof.
  destruct (zero_identifiers_count_as_absent all_zero) as (H1 & H2 & H3).
  split; [apply H1; left; reflexivity|].
  split; [reflexivity|].
  split; [apply H2; reflexivity|].
  apply H3; left; reflexivity.
Defined.

(** ** Further properties of the cascade *)

(** X1.  The evaluation of two messages that the constructor returned never
    raises: it returns [True], [False] or [NotImplemented]. *)
Theorem eq_never_raises_on_constructed
    (ratio : Py.str -> Py.str -> float) (ka kb a b : t) :
  __init__ ka = Py.Ok a ->
  __init__ kb = Py.Ok b ->
  exists v, __eq__ ratio a b = Py.Ok v.
Proof.
  intros _ Hb.
  destruct (eq_is_verdict_or_type_error ratio a b) as [H|(_ & _ & _ & Hn)];
    [exact H|].
  destruct (init_gives_present_fields kb b Hb) as (_ & ids & Hids).
  congruence.
Qed.

Lemma eq_never_raises_on_constructed_witness :
  exists v,
    __eq__ Difflib.ratio (constructed kw_photo) (constructed kw_hello_elsewhere)
    = Py.Ok v.
Proof.
  apply (eq_never_raises_on_constructed Difflib.ratio kw_photo kw_hello_elsewhere);
    by_evaluation.
Defined.



(** X3.  For a comparable [a], two observations of the same post (equal
    [channel_id] and [message_id]) match, and so do two forwards of the same
    origin post (a non-zero [from_channel_id], equal to that of [b], and
    equal [from_message_id]), whatever the texts and attachments. *)
Theorem same_post_or_same_origin_match
    (ratio : Py.str -> Py.str -> float) (a b : t) :
  is_comparable a = true ->
  (channel_id a = channel_id b /\ message_id a = message_id b) \/
  ((exists c, from_channel_id a = Some c /\ c <> 0) /\
   from_channel_id a = from_channel_id b /\
   from_message_id a = from_message_id b) ->
  __eq__ ratio a b = Py.Ok (Bool true).
Proof.
  intros Hc H. rewrite (eq_unfold_comparable ratio a b Hc).
  destruct (bool_decide (fingerprint a = fingerprint b)); [reflexivity|].
  destruct H as [[H1 H2]|(H0 & H1 & H2)].
  - unfold same_message.
    assert (Py.truthy_int (channel_id a) = true) as ->.
    { unfold is_comparable, ids_present in Hc.
      destruct (Py.truthy_int (channel_id a)); [reflexivity|discriminate]. }
    rewrite !bool_decide_eq_true_2 by assumption. reflexivity.
  - destruct (same_message a b); [reflexivity|].
    unfold same_forwarded. apply truthy_int_true in H0. rewrite H0.
    rewrite !bool_decide_eq_true_2 by assumption. reflexivity.
Qed.

Lemma same_post_or_same_origin_match_witness :
  Py.gt (same_text_ratio Difflib.ratio (constructed kw_forward_a)
           (constructed kw_forward_b)) text_ratio_media_limit = false /\
  overlap_ratio [Py.lit "m1"] [Py.lit "m7"] = 0%float /\
  __eq__ Difflib.ratio (constructed kw_forward_a) (constructed kw_forward_b)
  = Py.Ok (Bool true).
Proof.
  split; [by_evaluation|].
  split; [by_evaluation|].
  apply (same_post_or_same_origin_match Difflib.ratio
           (constructed kw_forward_a) (constructed kw_forward_b)).
  - by_evaluation.
  - right. split; [exists 10; split; [by_evaluation|discriminate]|].
    split; by_evaluation.
Defined.

(** X4.  The text-assisted media rule: when [a] is comparable with
    attachments and significant text and [b] carries a list of attachments,
    a text ratio above 0.33 is a match, whatever the attachments are. *)
Theorem text_assisted_media_rule
    (ratio : Py.str -> Py.str -> float) (a b : t) (la lb : list Py.str) :
  is_comparable a = true ->
  media_ids a = Some la ->
  la <> [] ->
  significant_text a = Some true ->
  media_ids b = Some lb ->
  PrimFloat.ltb 0.33 (same_text_ratio ratio a b) = true ->
  __eq__ ratio a b = Py.Ok (Bool true).
Proof.
  intros Hc Ha Hla Hs Hb Hr. rewrite (eq_unfold_comparable ratio a b Hc).
  case_ifs;
    try reflexivity.
  assert (Hseq : Py.truthy_seq la = true) by (destruct la; [congruence|reflexivity]).
  rewrite (same_media_unfold ratio a b la lb Ha Hseq Hb).
  rewrite Hs. unfold Py.gt, text_ratio_media_limit. rewrite Hr. reflexivity.
Qed.

Lemma text_assisted_media_rule_witness :
  same_text_ratio Difflib.ratio (constructed kw_caption_a) (constructed kw_caption_b)
  = 0.5%float /\
  overlap_ratio [Py.lit "m1"] [Py.lit "m2"] = 0%float /\
  __eq__ Difflib.ratio (constructed kw_caption_a) (constructed kw_caption_b)
  = Py.Ok (Bool true).
Proof.
  split; [by_evaluation|].
  split; [by_evaluation|].
  apply (text_assisted_media_rule Difflib.ratio (constructed kw_caption_a)
           (constructed kw_caption_b) [Py.lit "m1"] [Py.lit "m2"]);
    try (by_evaluation).
  discriminate.
Defined.

(** X5.  A self-forward, a message whose [forward_from_id] is non-zero and
    equal to its [from_id], is not comparable: its evaluation against any
    message is the incomparable outcome. *)
Theorem self_forward_is_incomparable
    (ratio : Py.str -> Py.str -> float) (a b : t) (f : Z) :
  forward_from_id a = Some f ->
  from_id a = Some f ->
  f <> 0 ->
  is_comparable a = false /\ __eq__ ratio a b = Py.Ok NotImplemented.
Proof.
  intros H1 H2 H0.
  assert (Hc : is_comparable a = false).
  { apply not_comparable_iff. right; right; right. exists f. auto. }
  split; [exact Hc|]. unfold __eq__. rewrite Hc. reflexivity.
Qed.

Lemma self_forward_is_incomparable_witness :
  is_comparable (constructed kw_self_forward) = false /\
  __eq__ Difflib.ratio (constructed kw_self_forward) (constructed kw_hello_5)
  = Py.Ok NotImplemented.
Proof.
  apply (self_forward_is_incomparable Difflib.ratio (constructed kw_self_forward)
           (constructed kw_hello_5) 42).
  - by_evaluation.
  - by_evaluation.
  - discriminate.
Defined.

(** X6.  The derived fields of a message that the constructor returns: the
    other fields are those of the call, [significant_text] tells whether
    the text-or-caption has more than 64 characters, and [chat_id] is the
    value of the chat id derivation. *)
Theorem derived_fields_of_constructed (s m : t) :
  __init__ s = Py.Ok m ->
  (significant_text m = Some true <-> (64 < List.length (text_or_caption m))%nat) /\
  (significant_text m = Some false <-> (List.length (text_or_caption m) <= 64)%nat) /\
  (exists c, chat_id m = Some c /\ __chat_id m = Py.Ok c) /\
  (from_id m, channel_id m, message_id m, from_channel_id m, from_message_id m,
   forward_from_id m, text m, caption m, media_ids m)
  = (from_id s, channel_id s, message_id s, from_channel_id s, from_message_id s,
     forward_from_id s, text s, caption s, media_ids s).
Proof.
  intros H. destruct (init_inv s m H) as (c & f & Hc & _ & ->).
  change (text_or_caption (Build _ _ _ _ _ _ (text s) (caption s) _ _ _ _))
    with (text_or_caption s).
  cbn [significant_text chat_id].
  change (__chat_id (Build _ (channel_id s) _ _ _ _ _ _ _ _ _ _)) with (__chat_id s).
  destruct (Nat.ltb_spec 64 (List.length (text_or_caption s))) as [Hl|Hl].
  - split; [split; [intros _; exact Hl|reflexivity]|].
    split; [split; [discriminate|lia]|].
    split; [exists c; auto|reflexivity].
  - split; [split; [discriminate|lia]|].
    split; [split; [intros _; exact Hl|reflexivity]|].
    split; [exists c; auto|reflexivity].
Qed.

Lemma derived_fields_of_constructed_witness :
  significant_text (constructed kw_hello_5) = Some true /\
  significant_text (constructed kw_photo) = Some false /\
  chat_id (constructed kw_hello_5) = Some 123.
Proof.
  destruct (derived_fields_of_constructed kw_hello_5 (constructed kw_hello_5)
              ltac:(by_evaluation)) as (H1 & _ & _ & _).
  split; [apply H1; vm_compute; lia|].
  split; by_evaluation.
Defined.

(** ** The chat id *)














(** ** Texts that UTF-8 can encode *)








(** ** Success of the constructor *)


Example chat_id_of_prefixed_channel_id :
  __chat_id kw_hello_5 = Py.Ok 123 /\
  __chat_id (kwargs None (Some (-1005)) None None None None None None None) = Py.Ok 5 /\
  __chat_id (kwargs None (Some (-100)) None None None None None None None)
  = Py.Raise Py.ValueError /\
  __chat_id (kwargs None (Some (-42)) None None None None None None None) = Py.Ok (-42).
Proof. repeat split; reflexivity. Qed.

(** ** Order, symmetry and size in the media rules *)

Lemma truthy_seq_perm {A : Type} (l l' : list A) :
  Permutation l l' -> Py.truthy_seq l' = Py.truthy_seq l.
Proof.
  intros H. destruct l as [|x l], l' as [|y l']; try reflexivity.
  - apply Permutation_nil in H. discriminate.
  - symmetry in H. apply Permutation_nil in H. discriminate.
Qed.

Lemma same_media_list_length_perm (la la' lb lb' : list Py.str) :
  Permutation la la' -> Permutation lb lb' ->
  List.length (same_media_list la' lb') = List.length (same_media_list la lb).
Proof.
  intros Ha Hb. unfold same_media_list.
  rewrite (list_to_set_perm_L la la' Ha), (list_to_set_perm_L lb lb' Hb).
  reflexivity.
Qed.

Lemma overlap_ratio_sym (la lb : list Py.str) :
  overlap_ratio la lb = overlap_ratio lb la.
Proof.
  unfold overlap_ratio.
  rewrite (intersection_comm_L (list_to_set la) (list_to_set lb)), Nat.max_comm.
  reflexivity.
Qed.

Lemma size_list_to_set_le (l : list Py.str) :
  (size (list_to_set l : gset (list N)) <= List.length l)%nat.
Proof.
  induction l as [|x l IH]; [rewrite list_to_set_nil, size_empty; lia|].
  rewrite list_to_set_cons, size_union_alt, size_singleton. cbn [List.length].
  assert (Hsub : list_to_set l ∖ {[x]} ⊆ (list_to_set l : gset (list N)))
    by apply subseteq_difference_l, reflexivity.
  apply subseteq_size in Hsub. lia.
Qed.

Lemma overlap_size_le (la lb : list Py.str) :
  (size (list_to_set la ∩ list_to_set lb : gset (list N))
   <= Nat.min (List.length la) (List.length lb))%nat.
Proof.
  pose proof (size_list_to_set_le la) as La.
  pose proof (size_list_to_set_le lb) as Lb.
  assert (Ha : list_to_set la ∩ list_to_set lb ⊆ (list_to_set la : gset (list N)))
    by apply intersection_subseteq_l.
  assert (Hb : list_to_set la ∩ list_to_set lb ⊆ (list_to_set lb : gset (list N)))
    by apply intersection_subseteq_r.
  apply subseteq_size in Ha, Hb. lia.
Qed.

(** X10.  The media rules do not depend on the order in which either
    message lists its attachments: after the attachments of both operands
    are reordered, the block under [if self.media_ids:] gives the same
    result. *)
Theorem media_rules_ignore_order
    (ratio : Py.str -> Py.str -> float) (a b : t) (la la' lb lb' : list Py.str) :
  media_ids a = Some la ->
  media_ids b = Some lb ->
  Permutation la la' ->
  Permutation lb lb' ->
  same_media ratio (set_media_ids (Some la') a) (set_media_ids (Some lb') b)
  = same_media ratio a b.
Proof.
  intros Ha Hb Pa Pb. unfold same_media, same_text_ratio.
  cbn [set_media_ids media_ids significant_text Py.truthy_opt_seq iterable Py.bind].
  rewrite Ha, Hb. cbn [Py.truthy_opt_seq iterable Py.bind].
  rewrite (truthy_seq_perm la la' Pa).
  rewrite (same_media_list_length_perm la la' lb lb' Pa Pb).
  rewrite <- (Permutation_length Pa), <- (Permutation_length Pb).
  reflexivity.
Qed.

Lemma media_rules_ignore_order_witness :
  same_media Difflib.ratio
    (set_media_ids (Some album_321) (constructed kw_album_123))
    (set_media_ids (Some album_421) (constructed kw_album_124))
  = same_media Difflib.ratio (constructed kw_album_123) (constructed kw_album_124).
Proof.
  apply (media_rules_ignore_order Difflib.ratio (constructed kw_album_123)
           (constructed kw_album_124) album_123 album_321 album_124 album_421);
    try by_evaluation.
  - unfold album_123, album_321.
    apply perm_trans with (Py.lit "m2" :: Py.lit "m1" :: [Py.lit "m3"]);
      [apply perm_swap|].
    apply perm_trans with (Py.lit "m2" :: Py.lit "m3" :: [Py.lit "m1"]);
      [apply perm_skip, perm_swap|apply perm_swap].
  - unfold album_124, album_421.
    apply perm_trans with (Py.lit "m2" :: Py.lit "m1" :: [Py.lit "m4"]);
      [apply perm_swap|].
    apply perm_trans with (Py.lit "m2" :: Py.lit "m4" :: [Py.lit "m1"]);
      [apply perm_skip, perm_swap|apply perm_swap].
Defined.

(** X11.  Between two messages that both have attachments and neither has
    significant text, the media rules give the same result in both
    directions: the overlap ratio is symmetric. *)
Theorem content_only_media_rule_symmetric
    (ratio : Py.str -> Py.str -> float) (a b : t) (la lb : list Py.str) :
  media_ids a = Some la -> la <> [] ->
  media_ids b = Some lb -> lb <> [] ->
  significant_text a <> Some true ->
  significant_text b <> Some true ->
  same_media ratio a b = same_media ratio b a.
Proof.
  intros Ha Hla Hb Hlb Hsa Hsb.
  assert (Ta : Py.truthy_seq la = true) by (destruct la; [congruence|reflexivity]).
  assert (Tb : Py.truthy_seq lb = true) by (destruct lb; [congruence|reflexivity]).
  rewrite (same_media_unfold ratio a b la lb Ha Ta Hb).
  rewrite (same_media_unfold ratio b a lb la Hb Tb Ha).
  apply truthy_opt_bool_false in Hsa, Hsb. rewrite Hsa, Hsb.
  cbn [andb]. rewrite (overlap_ratio_sym la lb). reflexivity.
Qed.

Lemma content_only_media_rule_symmetric_witness :
  same_media Difflib.ratio (constructed kw_album_123) (constructed kw_album_124)
  = same_media Difflib.ratio (constructed kw_album_124) (constructed kw_album_123).
Proof.
  apply (content_only_media_rule_symmetric Difflib.ratio (constructed kw_album_123)
           (constructed kw_album_124) album_123 album_124);
    try by_evaluation; try discriminate.
Defined.

Lemma media_threshold_small (n d : nat) :
  (1 <= d <= 32)%nat -> (n <= d)%nat ->
  Py.ge (Py.float_of_nat n / Py.float_of_nat d)%float 0.66%float
  = (66 * d <=? 100 * n)%nat.
Proof.
  intros Hd Hn. pose proof media_threshold_on_small_albums as T.
  unfold media_threshold_table in T.
  rewrite List.forallb_forall in T.
  assert (Id : In d (seq 1 32)) by (apply in_seq; lia).
  specialize (T _ (in_map _ (seq 1 32) d Id)). cbv beta in T.
  rewrite List.forallb_forall in T.
  assert (In_ : In n (seq 0 (S d))) by (apply in_seq; lia).
  specialize (T _ (in_map _ (seq 0 (S d)) n In_)).
  apply Bool.eqb_prop in T. exact T.
Qed.

(** X12.  On albums of at most 32 attachments the content-only media rule
    is a test on integers: when [a] is comparable with attachments and no
    earlier rule matched, the evaluation returns match exactly when 100
    times the number of distinct common attachments is at least 66 times
    the length of the longer album.  In particular there is no match when
    the shorter album has fewer than 66% of the length of the longer one. *)
Theorem media_rule_on_small_albums
    (ratio : Py.str -> Py.str -> float) (a b : t) (la lb : list Py.str) :
  is_comparable a = true ->
  fingerprint a <> fingerprint b ->
  same_message a b = false ->
  same_forwarded a b = false ->
  (significant_text a = Some true ->
   PrimFloat.ltb (text_ratio_limit a) (same_text_ratio ratio a b) = false) ->
  (significant_text a = Some true ->
   PrimFloat.ltb text_ratio_media_limit (same_text_ratio ratio a b) = false) ->
  media_ids a = Some la ->
  la <> [] ->
  media_ids b = Some lb ->
  (List.length la <= 32)%nat ->
  (List.length lb <= 32)%nat ->
  __eq__ ratio a b
  = Py.Ok (Bool (66 * Nat.max (List.length la) (List.length lb)
                 <=? 100 * size (list_to_set la ∩ list_to_set lb : gset (list N)))%nat)
  /\ ((100 * Nat.min (List.length la) (List.length lb)
       < 66 * Nat.max (List.length la) (List.length lb))%nat ->
      __eq__ ratio a b = Py.Ok (Bool false)).
Proof.
  intros Hc Hf Hm Hw R4 R5 Ha Hla Hb La Lb.
  assert (Hseq : Py.truthy_seq la = true) by (destruct la; [congruence|reflexivity]).
  assert (E : __eq__ ratio a b
              = Py.Ok (Bool (66 * Nat.max (List.length la) (List.length lb)
                             <=? 100 * size (list_to_set la ∩ list_to_set lb
                                             : gset (list N)))%nat)).
  { rewrite (eq_unfold_at_text_rule ratio a b Hc Hf Hm Hw).
    rewrite (same_media_unfold ratio a b la lb Ha Hseq Hb).
    unfold Py.gt, media_ratio_limit, overlap_ratio.
    pose proof (overlap_size_le la lb) as Hle.
    rewrite media_threshold_small
      by (destruct la; [congruence|cbn [List.length] in *; lia]).
    destruct (significant_text a) as [[|]|]; cbn [Py.truthy_opt_bool andb];
      try rewrite (R4 eq_refl); try rewrite (R5 eq_refl); reflexivity. }
  split; [exact E|].
  intros Hlt. rewrite E. pose proof (overlap_size_le la lb) as Hle.
  destruct (Nat.leb_spec
              (66 * Nat.max (List.length la) (List.length lb))
              (100 * size (list_to_set la ∩ list_to_set lb : gset (list N))));
    [lia|reflexivity].
Qed.

Lemma media_rule_on_small_albums_witness :
  __eq__ Difflib.ratio (constructed kw_album_123) (constructed kw_album_124)
  = Py.Ok (Bool (66 * 3 <=? 100 * 2)%nat).
Proof.
  assert (Hf : fingerprint (constructed kw_album_123)
               <> fingerprint (constructed kw_album_124))
    by (vm_compute; discriminate).
  destruct (media_rule_on_small_albums Difflib.ratio (constructed kw_album_123)
              (constructed kw_album_124) album_123 album_124
              ltac:(by_evaluation) Hf ltac:(by_evaluation) ltac:(by_evaluation)
              ltac:(by_evaluation) ltac:(by_evaluation) ltac:(by_evaluation)
              ltac:(discriminate) ltac:(by_evaluation)
              ltac:(cbn; lia) ltac:(cbn; lia)) as [E _].
  exact E.
Defined.

(** ** Symmetry of the identity rules *)

Lemma same_message_sym (a b : t) :
  same_message a b = true -> same_message b a = true.
Proof.
  unfold same_message. rewrite !andb_true_iff, !bool_decide_eq_true.
  intros [[Ht Hc] Hm]. rewrite <- Hc, <- Hm, Ht. auto.
Qed.

Lemma same_forwarded_sym (a b : t) :
  same_forwarded a b = true -> same_forwarded b a = true.
Proof.
  unfold same_forwarded. rewrite !andb_true_iff, !bool_decide_eq_true.
  intros [[Ht Hc] Hm]. rewrite <- Hc, <- Hm, Ht. auto.
Qed.

(** X13.  The first three rules of the cascade are symmetric: when both
    messages are comparable and they have equal fingerprints, or are the
    same post, or are forwards of the same origin post, the evaluation
    returns match in both directions. *)
Theorem identity_rules_symmetric
    (ratio : Py.str -> Py.str -> float) (a b : t) :
  is_comparable a = true ->
  is_comparable b = true ->
  fingerprint a = fingerprint b \/ same_message a b = true
  \/ same_forwarded a b = true ->
  __eq__ ratio a b = Py.Ok (Bool true) /\ __eq__ ratio b a = Py.Ok (Bool true).
Proof.
  intros Ha Hb H.
  rewrite (eq_unfold_comparable ratio a b Ha), (eq_unfold_comparable ratio b a Hb).
  destruct H as [H|[H|H]].
  - rewrite !bool_decide_eq_true_2 by congruence. auto.
  - rewrite (same_message_sym a b H), H. split; case_ifs; reflexivity.
  - rewrite (same_forwarded_sym a b H), H. split; case_ifs; reflexivity.
Qed.

Lemma identity_rules_symmetric_witness :
  __eq__ Difflib.ratio (constructed kw_forward_a) (constructed kw_forward_b)
  = Py.Ok (Bool true) /\
  __eq__ Difflib.ratio (constructed kw_forward_b) (constructed kw_forward_a)
  = Py.Ok (Bool true).
Proof.
  apply (identity_rules_symmetric Difflib.ratio
           (constructed kw_forward_a) (constructed kw_forward_b));
    [by_evaluation|by_evaluation|].
  right. right. by_evaluation.
Defined.

(** ** Separators in the hashed text *)

Lemma join_comma_merge (x y : Py.str) (rest : list Py.str) :
  Py.join (Py.lit ",") ((x ++ Py.lit "," ++ y) :: rest)
  = Py.join (Py.lit ",") (x :: y :: rest).
Proof.
  destruct rest as [|z rest]; cbn [Py.join]; [reflexivity|].
  rewrite <- !app_assoc. reflexivity.
Qed.

(** X14.  The hashed text does not delimit its parts, so different contents
    can share a fingerprint: one media id that holds a comma gives the
    fingerprint of the two media ids around the comma, and a text followed
    by a semicolon and [x], without attachments, gives the fingerprint of
    the text alone with the one media id [x] followed by a semicolon. *)
Theorem fingerprint_does_not_delimit_parts
    (fi ci mi fc fm ff : option Z) (tx cap : option Py.str) :
  (forall (x y : Py.str) (rest : list Py.str),
     __gen_fingerprint
       (kwargs fi ci mi fc fm ff tx cap (Some ((x ++ Py.lit "," ++ y) :: rest)))
     = __gen_fingerprint (kwargs fi ci mi fc fm ff tx cap (Some (x :: y :: rest)))) /\
  (forall (u x : Py.str),
     u <> [] ->
     __gen_fingerprint
       (kwargs fi ci mi fc fm ff (Some (u ++ Py.lit ";" ++ x)) cap (Some []))
     = __gen_fingerprint
         (kwargs fi ci mi fc fm ff (Some u) cap (Some [x ++ Py.lit ";"]))).
Proof.
  split.
  - intros x y rest. unfold __gen_fingerprint.
    cbn [kwargs media_ids Py.join_opt Py.bind]. rewrite join_comma_merge.
    reflexivity.
  - intros u x Hu. unfold __gen_fingerprint, text_or_caption.
    cbn [kwargs media_ids text caption from_channel_id from_message_id
         Py.join_opt Py.bind Py.or_str].
    destruct u as [|c u]; [congruence|].
    cbn [Py.truthy_seq app Py.join].
    match goal with
    | |- Py.bind (Py.encode_utf8 ?l) _ = Py.bind (Py.encode_utf8 ?r) _ =>
        assert (E : l = r); [|rewrite E; reflexivity]
    end.
    do 2 (apply (f_equal2 (@app _)); [reflexivity|]).
    do 2 (apply (f_equal2 (@app _)); [reflexivity|]).
    cbn [app]. f_equal. rewrite app_nil_r, <- !app_assoc. reflexivity.
Qed.

(** Two comparable posts with different texts and attachments that match
    by fingerprint. *)
Example posts_that_collide_on_separators :
  text_or_caption (constructed kw_text_with_separator)
  <> text_or_caption (constructed kw_media_with_separator) /\
  media_ids (constructed kw_text_with_separator)
  <> media_ids (constructed kw_media_with_separator) /\
  fingerprint (constructed kw_text_with_separator)
  = fingerprint (constructed kw_media_with_separator) /\
  __eq__ Difflib.ratio (constructed kw_text_with_separator)
         (constructed kw_media_with_separator) = Py.Ok (Bool true).
Proof.
  split; [vm_compute; discriminate|].
  split; [vm_compute; discriminate|].
  split; by_evaluation.
Qed.

(** ** The constructor and the derived fields *)

Lemma init_of_raw_fields (s s' : t) :
  raw_fields s = raw_fields s' -> __init__ s = __init__ s'.
Proof.
  destruct s, s'. unfold raw_fields. cbn [from_id channel_id message_id
    from_channel_id from_message_id forward_from_id text caption media_ids].
  intros H. injection H as -> -> -> -> -> -> -> -> ->.
  reflexivity.
Qed.

(** X15.  The constructor overwrites the three derived fields: two calls
    that pass the same nine other fields return the same result, whatever
    they pass for [fingerprint], [significant_text] and [chat_id]; and a
    call with the fields of a message that a constructor call returned
    returns that message again. *)
Theorem init_overwrites_derived_fields (s s' : t) :
  raw_fields s = raw_fields s' ->
  __init__ s = __init__ s' /\
  (forall m, __init__ s = Py.Ok m -> __init__ m = Py.Ok m).
Proof.
  intros H. split; [exact (init_of_raw_fields s s' H)|].
  intros m Hm. rewrite <- Hm. apply init_of_raw_fields.
  destruct (init_inv s m Hm) as (c & f & _ & _ & ->). reflexivity.
Qed.

Lemma init_overwrites_derived_fields_witness :
  fingerprint kw_hello_5_with_derived <> fingerprint (constructed kw_hello_5) /\
  __init__ kw_hello_5_with_derived = __init__ kw_hello_5 /\
  __init__ (constructed kw_hello_5) = Py.Ok (constructed kw_hello_5).
Proof.
  split; [vm_compute; discriminate|].
  destruct (init_overwrites_derived_fields kw_hello_5_with_derived kw_hello_5
              ltac:(reflexivity)) as [H1 H2].
  split; [exact H1|].
  pose proof (init_overwrites_derived_fields kw_hello_5 kw_hello_5 eq_refl) as [_ H3].
  apply H3. by_evaluation.
Defined.

(** X16.  Which constructor calls give a comparable message: the message
    that the constructor returns is comparable exactly when the call has a
    non-zero [channel_id] and a non-zero [message_id], has a non-empty
    [media_ids] or a text-or-caption of more than 64 characters, and is not
    a self-forward. *)
Theorem comparable_after_construction (s m : t) :
  __init__ s = Py.Ok m ->
  (is_comparable m = true <->
   (exists c, channel_id s = Some c /\ c <> 0) /\
   (exists i, message_id s = Some i /\ i <> 0) /\
   ((exists x l, media_ids s = Some (x :: l))
    \/ (64 < List.length (text_or_caption s))%nat) /\
   ~ (exists f, f <> 0 /\ forward_from_id s = Some f /\ from_id s = Some f)).
Proof.
  intros H. destruct (init_inv s m H) as (c & f & _ & _ & ->).
  rewrite <- !truthy_int_true.
  unfold is_comparable, ids_present, significant_content, forward_self.
  cbn [channel_id message_id media_ids significant_text forward_from_id from_id
       Py.truthy_opt_bool].
  rewrite !andb_true_iff, orb_true_iff, negb_true_iff, Nat.ltb_lt.
  assert (Hmed : Py.truthy_opt_seq (media_ids s) = true
                 <-> exists x l, media_ids s = Some (x :: l)).
  { destruct (media_ids s) as [[|x l]|]; cbn; split; eauto; try discriminate;
      intros (x' & l' & E); discriminate. }
  assert (Hfwd : Py.truthy_int (forward_from_id s)
                 && bool_decide (forward_from_id s = from_id s) = false
                 <-> ~ (exists f, f <> 0 /\ forward_from_id s = Some f
                                  /\ from_id s = Some f)).
  { rewrite <- not_true_iff_false, andb_true_iff, bool_decide_eq_true,
      truthy_int_true.
    split; intros Hn; intros Hx; apply Hn.
    - destruct Hx as (g & Hg0 & Hg & Hi). split; [exists g; auto|congruence].
    - destruct Hx as ((g & Hg & Hg0) & He). exists g. rewrite <- He. auto. }
  rewrite Hmed, Hfwd. tauto.
Qed.

Lemma comparable_after_construction_witness :
  is_comparable (constructed kw_hello_5) = true /\
  is_comparable (constructed kw_self_forward) = false.
Proof.
  split.
  - apply (comparable_after_construction kw_hello_5 (constructed kw_hello_5));
      [by_evaluation|].
    split; [exists (-100123); split; [reflexivity|discriminate]|].
    split; [exists 5; split; [reflexivity|discriminate]|].
    split; [right; vm_compute; lia|].
    intros (f0 & _ & Hf & _). discriminate Hf.
  - by_evaluation.
Defined.

(** ** What the evaluation reads *)

(** X17.  The evaluation reads neither the [from_id], the
    [forward_from_id], the [significant_text] nor the [chat_id] of its
    right operand, and not the [chat_id] of its left operand: two right
    operands that agree on the other eight fields give the same result. *)
Theorem eq_reads_eight_fields_of_other
    (ratio : Py.str -> Py.str -> float) (a b b' : t) (c : option Z) :
  fields_read_of_other b = fields_read_of_other b' ->
  __eq__ ratio a b = __eq__ ratio a b' /\
  __eq__ ratio (set_chat_id c a) b = __eq__ ratio a b.
Proof.
  intros H. split; [|reflexivity].
  destruct b, b'. unfold fields_read_of_other in H.
  cbn [channel_id message_id from_channel_id from_message_id text caption
       media_ids fingerprint] in H.
  injection H as -> -> -> -> -> -> -> ->.
  reflexivity.
Qed.

Lemma eq_reads_eight_fields_of_other_witness :
  is_comparable (constructed kw_self_forward) = false /\
  __eq__ Difflib.ratio (constructed kw_hello_6) (constructed kw_self_forward)
  = __eq__ Difflib.ratio (constructed kw_hello_6) (constructed kw_hello_5).
Proof.
  split; [by_evaluation|].
  apply (eq_reads_eight_fields_of_other Difflib.ratio (constructed kw_hello_6)
           (constructed kw_self_forward) (constructed kw_hello_5) None).
  by_evaluation.
Defined.

(** ** Messages without text *)

Lemma zero_exceeds_no_limit (a : t) :
  Py.gt 0 (text_ratio_limit a) = false /\ Py.gt 0 text_ratio_media_limit = false.
Proof. unfold text_ratio_limit. destruct (_ && _); split; reflexivity. Qed.

(** X18.  When either message has neither text nor caption, the similarity
    of texts plays no part: the text ratio is 0 without a call of the
    matcher, neither text rule matches, and once the identity rules have
    failed the result is no-match for an [a] without attachments and the
    overlap test for an [a] with attachments. *)
Theorem no_text_no_text_rule
    (ratio : Py.str -> Py.str -> float) (a b : t) (lb : list Py.str) :
  text_or_caption a = [] \/ text_or_caption b = [] ->
  is_comparable a = true ->
  fingerprint a <> fingerprint b ->
  same_message a b = false ->
  same_forwarded a b = false ->
  media_ids b = Some lb ->
  same_text_ratio ratio a b = 0%float /\
  __eq__ ratio a b =
  match media_ids a with
  | Some (x :: la) => Py.Ok (Bool (Py.ge (overlap_ratio (x :: la) lb) 0.66))
  | _ => Py.Ok (Bool false)
  end.
Proof.
  intros Ht Hc Hf Hm Hw Hb.
  assert (Hr : same_text_ratio ratio a b = 0%float).
  { unfold same_text_ratio. destruct Ht as [-> | ->]; cbn [Py.truthy_seq negb orb];
      [reflexivity|]. rewrite orb_true_r. reflexivity. }
  split; [exact Hr|].
  rewrite (eq_unfold_at_text_rule ratio a b Hc Hf Hm Hw), Hr.
  destruct (zero_exceeds_no_limit a) as [Z1 Z2].
  rewrite Z1, andb_false_r.
  destruct (media_ids a) as [[|x la]|] eqn:Ha.
  - apply same_media_without_attachments. rewrite Ha. reflexivity.
  - rewrite (same_media_unfold ratio a b (x :: la) lb Ha eq_refl Hb), Hr, Z2,
      andb_false_r.
    reflexivity.
  - apply same_media_without_attachments. rewrite Ha. reflexivity.
Qed.

Lemma no_text_no_text_rule_witness :
  significant_text (constructed kw_album_123_captioned) = Some true /\
  __eq__ Difflib.ratio (constructed kw_album_123_captioned) (constructed kw_album_12)
  = Py.Ok (Bool true).
Proof.
  split; [by_evaluation|].
  assert (Hf : fingerprint (constructed kw_album_123_captioned)
               <> fingerprint (constructed kw_album_12))
    by (vm_compute; discriminate).
  destruct (no_text_no_text_rule Difflib.ratio (constructed kw_album_123_captioned)
              (constructed kw_album_12) [Py.lit "m1"; Py.lit "m2"]
              ltac:(right; by_evaluation) ltac:(by_evaluation) Hf
              ltac:(by_evaluation) ltac:(by_evaluation) ltac:(by_evaluation))
    as [_ E].
  rewrite E. by_evaluation.
Defined.
